(** * homed-service-zigbee: property parsers and the ZCL message engine

    A shallow embedding of [src/property.cpp] (the property parsers) and of
    [src/zigbee.cpp] (request scheduler, interview state machine, ZCL
    dispatch, OTA and time responders), with the properties the
    specification states about them.

    Conventions.
    - A [QByteArray] is a [list byte]; [data.at(i)] past the end reads as zero
      (a [QByteArray] carries a terminating zero byte).
    - [quint8], [quint16], [qint16], [quint32] are [Z] with the wrap-around
      written out.
    - A [QMap] is an association list kept sorted by key, as [QMap] iterates
      in key order and [insert] replaces the value of a key already there.
    - [double] is the kernel's binary64 [float]. *)

From Stdlib Require Import ZArith List String Ascii Bool Lia Floats.
From Stdlib.Strings Require Import Byte.
Import ListNotations.
Open Scope string_scope.
Open Scope list_scope.
Open Scope Z_scope.

(** ** Bytes and fixed-width integers *)

Definition QByteArray := list byte.

Definition quint8_of_byte (b : byte) : Z := Z.of_N (Byte.to_N b).

(** [static_cast <char>] of an integer: the low eight bits. *)
Definition byte_of_Z (z : Z) : byte :=
  match Byte.of_N (Z.to_N (z mod 256)) with
  | Some b => b
  | None => x00
  end.

(** [data.at(i)] read as [quint8]. *)
Definition at_ (data : QByteArray) (i : nat) : Z :=
  quint8_of_byte (nth i data x00).

(** [data.mid(pos)] and [data.mid(pos, len)]. *)
Definition mid (data : QByteArray) (pos : nat) : QByteArray := skipn pos data.
Definition mid_len (data : QByteArray) (pos len : nat) : QByteArray :=
  firstn len (skipn pos data).

(** [data.length()]. *)
Definition qlen (data : QByteArray) : Z := Z.of_nat (List.length data).

(** [memcpy] of two, four bytes at [pos] into a zeroed unsigned integer,
    read little-endian ([qFromLittleEndian]) or big-endian ([qFromBigEndian]). *)
Definition le16 (data : QByteArray) (pos : nat) : Z :=
  at_ data pos + 256 * at_ data (pos + 1).

Definition le32 (data : QByteArray) (pos : nat) : Z :=
  at_ data pos + 256 * at_ data (pos + 1)
  + 65536 * at_ data (pos + 2) + 16777216 * at_ data (pos + 3).

Definition le64 (data : QByteArray) (pos : nat) : Z :=
  le32 data pos + 4294967296 * le32 data (pos + 4).

Definition be16 (data : QByteArray) (pos : nat) : Z :=
  256 * at_ data pos + at_ data (pos + 1).

Definition be32 (data : QByteArray) (pos : nat) : Z :=
  16777216 * at_ data pos + 65536 * at_ data (pos + 1)
  + 256 * at_ data (pos + 2) + at_ data (pos + 3).

(** A 16-bit pattern read as [qint16], a 32-bit one as [int]. *)
Definition to_qint16 (z : Z) : Z :=
  let u := z mod 65536 in if u <? 32768 then u else u - 65536.

Definition to_int32 (z : Z) : Z :=
  let u := z mod 4294967296 in if u <? 2147483648 then u else u - 4294967296.

(** The little-endian bytes of a 16-bit and of a 32-bit integer. *)
Definition bytes_le16 (z : Z) : QByteArray :=
  [byte_of_Z z; byte_of_Z (z / 256)].

Definition bytes_le32 (z : Z) : QByteArray :=
  [byte_of_Z z; byte_of_Z (z / 256); byte_of_Z (z / 65536); byte_of_Z (z / 16777216)].

Definition bytes_le64 (z : Z) : QByteArray :=
  bytes_le32 z ++ bytes_le32 (z / 4294967296).

(** The bytes of a 64-bit integer most significant first, the layout
    [qToBigEndian] leaves in memory. *)
Definition bytes_be64 (z : Z) : QByteArray := rev (bytes_le64 z).

(** ** QVariant and QMap *)

#[local] Set Warnings "-register-all".

Inductive QVariant : Type :=
| Invalid
| VBool (b : bool)
| VInt (z : Z)
| VUInt (z : Z)
| VDouble (d : float)
| VString (s : string)
| VList (l : list QVariant)
| VMap (m : list (string * QVariant)).

Definition isValid (v : QVariant) : bool :=
  match v with Invalid => false | _ => true end.

Section QMapOps.
Context {K V : Type} (cmp : K -> K -> comparison).

(** [QMap::insert]: the value of a key already present is replaced. *)
Fixpoint qmap_insert (k : K) (v : V) (m : list (K * V)) : list (K * V) :=
  match m with
  | [] => [(k, v)]
  | (k', v') :: rest =>
      match cmp k k' with
      | Lt => (k, v) :: m
      | Eq => (k, v) :: rest
      | Gt => (k', v') :: qmap_insert k v rest
      end
  end.

(** [QMap::find] / [QMap::value]. *)
Fixpoint qmap_find (k : K) (m : list (K * V)) : option V :=
  match m with
  | [] => None
  | (k', v') :: rest =>
      match cmp k k' with
      | Eq => Some v'
      | _ => qmap_find k rest
      end
  end.

End QMapOps.

(** ** Doubles *)

Definition double_of_Z (z : Z) : float :=
  if z <? 0 then PrimFloat.opp (PrimFloat.of_uint63 (Uint63.of_Z (- z)))
  else PrimFloat.of_uint63 (Uint63.of_Z z).

(** Truncation toward zero, as a conversion of a [double] to an integer
    type does. *)
Definition double_trunc (d : float) : Z :=
  match Prim2SF d with
  | S754_finite s m e =>
      let a := if 0 <=? e then Z.pos m * 2 ^ e else Z.pos m / 2 ^ (- e) in
      if s then - a else a
  | _ => 0
  end.

(** [QVariant::toMap], [toInt], [toBool], [toDouble]. *)
Definition toMap (v : QVariant) : list (string * QVariant) :=
  match v with VMap m => m | _ => [] end.

Definition toInt (v : QVariant) : Z :=
  match v with
  | VBool b => if b then 1 else 0
  | VInt z => z
  | VUInt z => to_int32 z
  | _ => 0
  end.

Definition toBool (v : QVariant) : bool :=
  match v with
  | VBool b => b
  | VInt z | VUInt z => negb (z =? 0)
  | _ => false
  end.

Definition toDouble (v : QVariant) : float :=
  match v with
  | VBool b => if b then 1%float else 0%float
  | VInt z | VUInt z => double_of_Z z
  | VDouble d => d
  | _ => 0%float
  end.

Definition map_insert := @qmap_insert string QVariant String.compare.
Definition map_value := @qmap_find string QVariant String.compare.

(** ** PropertyObject::percentage *)

Definition percentage (min max value : float) : Z :=
  let value := if PrimFloat.ltb value min then min else value in
  let value := if PrimFloat.ltb max value then max else value in
  double_trunc ((value - min) / (max - min) * 100)%float mod 256.

(** ** ZCL data types *)

(** Modelled from the spec: the data type identifiers of [zcl.h], which is
    not among the sources, with the values the specification lists for the
    ZCL wire format. *)
Definition DATA_TYPE_BOOLEAN : Z := 0x10.
Definition DATA_TYPE_8BIT_BITMAP : Z := 0x18.
Definition DATA_TYPE_8BIT_UNSIGNED : Z := 0x20.
Definition DATA_TYPE_16BIT_UNSIGNED : Z := 0x21.
Definition DATA_TYPE_24BIT_UNSIGNED : Z := 0x22.
Definition DATA_TYPE_32BIT_UNSIGNED : Z := 0x23.
Definition DATA_TYPE_48BIT_UNSIGNED : Z := 0x25.
Definition DATA_TYPE_8BIT_SIGNED : Z := 0x28.
Definition DATA_TYPE_16BIT_SIGNED : Z := 0x29.
Definition DATA_TYPE_32BIT_SIGNED : Z := 0x2B.
Definition DATA_TYPE_8BIT_ENUM : Z := 0x30.
Definition DATA_TYPE_SINGLE_PRECISION : Z := 0x39.
Definition DATA_TYPE_OCTET_STRING : Z := 0x41.
Definition DATA_TYPE_CHARACTER_STRING : Z := 0x42.
Definition DATA_TYPE_UTC_TIME : Z := 0xE2.
Definition DATA_TYPE_IEEE_ADDRESS : Z := 0xF0.

(** ** PropertyObject

    The members of the base class and of its subclasses that the parsers
    below read and write. *)

Record PropertyObject : Type := mkProperty {
  m_name : string;
  m_clusterId : Z;
  m_value : QVariant;
  m_options : list (string * QVariant);
  m_colorH : QVariant;
  m_colorS : QVariant
}.

Definition setValue (p : PropertyObject) (v : QVariant) : PropertyObject :=
  mkProperty (m_name p) (m_clusterId p) v (m_options p) (m_colorH p) (m_colorS p).

Definition setColorH (p : PropertyObject) (v : QVariant) : PropertyObject :=
  mkProperty (m_name p) (m_clusterId p) (m_value p) (m_options p) v (m_colorS p).

Definition setColorS (p : PropertyObject) (v : QVariant) : PropertyObject :=
  mkProperty (m_name p) (m_clusterId p) (m_value p) (m_options p) (m_colorH p) v.

(** [data.at(0) ? "on" : "off"]. *)
Definition onOff (data : QByteArray) : QVariant :=
  VString (if at_ data 0 =? 0 then "off" else "on").

Module Properties.

Module BatteryVoltage.
Definition parseAttribte (p : PropertyObject) (attributeId dataType : Z)
    (data : QByteArray) : PropertyObject :=
  if negb (attributeId =? 0x0020) || negb (dataType =? DATA_TYPE_8BIT_UNSIGNED)
     || negb (qlen data =? 1)
  then p
  else setValue p (VInt (percentage 2850 3200 (double_of_Z (at_ data 0 * 100)))).
End BatteryVoltage.

Module BatteryPercentage.
Definition parseAttribte (p : PropertyObject) (attributeId dataType : Z)
    (data : QByteArray) : PropertyObject :=
  if negb (attributeId =? 0x0021) || negb (dataType =? DATA_TYPE_8BIT_UNSIGNED)
     || negb (qlen data =? 1)
  then p
  else
    let undivided :=
      match map_value "batteryUndivided" (m_options p) with
      | Some v => toBool v
      | None => false
      end in
    setValue p (VDouble (double_of_Z (at_ data 0) / (if undivided then 1 else 2))%float).
End BatteryPercentage.

Module Status.
Definition parseAttribte (p : PropertyObject) (attributeId dataType : Z)
    (data : QByteArray) : PropertyObject :=
  if negb (attributeId =? 0x0000)
     || (negb (dataType =? DATA_TYPE_BOOLEAN) && negb (dataType =? DATA_TYPE_8BIT_UNSIGNED))
     || negb (qlen data =? 1)
  then p
  else setValue p (onOff data).
End Status.

Module Contact.
Definition parseAttribte (p : PropertyObject) (attributeId dataType : Z)
    (data : QByteArray) : PropertyObject :=
  if negb (attributeId =? 0x0000) || negb (dataType =? DATA_TYPE_BOOLEAN)
     || negb (qlen data =? 1)
  then p
  else setValue p (VBool (negb (at_ data 0 =? 0))).
End Contact.

Module PowerOnStatus.
Definition parseAttribte (p : PropertyObject) (attributeId dataType : Z)
    (data : QByteArray) : PropertyObject :=
  if negb (attributeId =? 0x4003) || negb (dataType =? DATA_TYPE_8BIT_ENUM)
     || negb (qlen data =? 1)
  then p
  else
    let v := at_ data 0 in
    if v =? 0x00 then setValue p (VString "off")
    else if v =? 0x01 then setValue p (VString "on")
    else if v =? 0x02 then setValue p (VString "toggle")
    else if v =? 0xFF then setValue p (VString "previous")
    else p.
End PowerOnStatus.

Module Level.
Definition parseAttribte (p : PropertyObject) (attributeId dataType : Z)
    (data : QByteArray) : PropertyObject :=
  if negb (attributeId =? 0x0000) || negb (dataType =? DATA_TYPE_8BIT_UNSIGNED)
     || negb (qlen data =? 1)
  then p
  else setValue p (VInt (at_ data 0)).
End Level.

Module ColorHS.
(** The tail of the function, after the [switch]. *)
Definition emit (p : PropertyObject) : PropertyObject :=
  if negb (isValid (m_colorH p)) || negb (isValid (m_colorS p))
  then p
  else setValue p (VList [m_colorH p; m_colorS p]).

Definition parseAttribte (p : PropertyObject) (attributeId dataType : Z)
    (data : QByteArray) : PropertyObject :=
  if attributeId =? 0x0000 then
    if negb (dataType =? DATA_TYPE_8BIT_UNSIGNED) || negb (qlen data =? 1)
    then p
    else emit (setColorH p (VInt (at_ data 0)))
  else if attributeId =? 0x0001 then
    if negb (dataType =? DATA_TYPE_8BIT_UNSIGNED) || negb (qlen data =? 1)
    then p
    else emit (setColorS p (VInt (at_ data 0)))
  else emit p.
End ColorHS.

Module ColorTemperature.
Definition parseAttribte (p : PropertyObject) (attributeId dataType : Z)
    (data : QByteArray) : PropertyObject :=
  if negb (attributeId =? 0x0007) || negb (dataType =? DATA_TYPE_16BIT_UNSIGNED)
     || negb (qlen data =? 2)
  then p
  else setValue p (VInt (to_qint16 (le16 data 0))).
End ColorTemperature.

Module Occupancy.
Definition parseAttribte (p : PropertyObject) (attributeId dataType : Z)
    (data : QByteArray) : PropertyObject :=
  if negb (attributeId =? 0x0000) || negb (dataType =? DATA_TYPE_8BIT_BITMAP)
     || negb (qlen data =? 1)
  then p
  else setValue p (VBool (negb (at_ data 0 =? 0))).
End Occupancy.

Module IdentifyAction.
Definition parseCommand (p : PropertyObject) (commandId : Z)
    (payload : QByteArray) : PropertyObject :=
  if negb (commandId =? 0x01) then p else setValue p (VString "identify").
End IdentifyAction.

Module SwitchAction.
Definition parseCommand (p : PropertyObject) (commandId : Z)
    (payload : QByteArray) : PropertyObject :=
  if commandId =? 0x00 then setValue p (VString "off")
  else if commandId =? 0x01 then setValue p (VString "on")
  else if commandId =? 0x02 then setValue p (VString "toggle")
  else p.
End SwitchAction.

Module LevelAction.
Definition parseCommand (p : PropertyObject) (commandId : Z)
    (payload : QByteArray) : PropertyObject :=
  if commandId =? 0x01 then setValue p (VString "moveDown")
  else if commandId =? 0x05 then setValue p (VString "moveUp")
  else if commandId =? 0x07 then setValue p (VString "moveStop")
  else p.
End LevelAction.

(** [ColorXY], [Energy] and [Power] add members of their own to the base
    class. *)
Module ColorXY.
Record Object : Type := mkObject {
  base : PropertyObject;
  m_colorX : QVariant;
  m_colorY : QVariant
}.

(** The tail of the function, after the [switch]. *)
Definition emit (o : Object) : Object :=
  if negb (isValid (m_colorX o)) || negb (isValid (m_colorY o))
  then o
  else mkObject (setValue (base o) (VList [m_colorX o; m_colorY o]))
                (m_colorX o) (m_colorY o).

Definition parseAttribte (o : Object) (attributeId dataType : Z)
    (data : QByteArray) : Object :=
  if attributeId =? 0x0003 then
    if negb (dataType =? DATA_TYPE_16BIT_UNSIGNED) || negb (qlen data =? 2)
    then o
    else emit (mkObject (base o) (VDouble (double_of_Z (le16 data 0) / 65535)%float)
                        (m_colorY o))
  else if attributeId =? 0x0004 then
    if negb (dataType =? DATA_TYPE_16BIT_UNSIGNED) || negb (qlen data =? 2)
    then o
    else emit (mkObject (base o) (m_colorX o)
                        (VDouble (double_of_Z (le16 data 0) / 65535)%float))
  else emit o.
End ColorXY.

Module Temperature.
Definition parseAttribte (p : PropertyObject) (attributeId dataType : Z)
    (data : QByteArray) : PropertyObject :=
  if negb (attributeId =? 0x0000) || negb (dataType =? DATA_TYPE_16BIT_SIGNED)
     || negb (qlen data =? 2)
  then p
  else setValue p (VDouble (double_of_Z (to_qint16 (le16 data 0)) / 100)%float).
End Temperature.

Module Humidity.
Definition parseAttribte (p : PropertyObject) (attributeId dataType : Z)
    (data : QByteArray) : PropertyObject :=
  if negb (attributeId =? 0x0000) || negb (dataType =? DATA_TYPE_16BIT_UNSIGNED)
     || negb (qlen data =? 2)
  then p
  else setValue p (VDouble (double_of_Z (to_qint16 (le16 data 0)) / 100)%float).
End Humidity.

(** [memcpy] of three and of six bytes into a zeroed unsigned integer, read
    little-endian. *)
Definition le24 (data : QByteArray) (pos : nat) : Z :=
  at_ data pos + 256 * at_ data (pos + 1) + 65536 * at_ data (pos + 2).

Definition le48 (data : QByteArray) (pos : nat) : Z :=
  le24 data pos + 16777216 * le24 data (pos + 3).

(** Modelled from the spec: the members [m_multiplier] and [m_divider] of
    [Energy] and [Power] are declared in [property.h], which is not among
    the sources; they are unsigned integers that hold what the parsers store
    in them, and a reading is published only once both are non-zero. *)
Record Scaled : Type := mkScaled {
  scaledBase : PropertyObject;
  m_multiplier : Z;
  m_divider : Z
}.

(** What follows the [memcpy] of a reading: the integer, multiplied and
    divided as [double] when the factors are greater than one. *)
Definition scale (o : Scaled) (raw : QVariant) : Scaled :=
  let v := raw in
  let v := if 1 <? m_multiplier o
           then VDouble (toDouble v * double_of_Z (m_multiplier o))%float else v in
  let v := if 1 <? m_divider o
           then VDouble (toDouble v / double_of_Z (m_divider o))%float else v in
  mkScaled (setValue (scaledBase o) v) (m_multiplier o) (m_divider o).

Module Energy.
Definition parseAttribte (o : Scaled) (attributeId dataType : Z)
    (data : QByteArray) : Scaled :=
  if attributeId =? 0x0000 then
    if negb (dataType =? DATA_TYPE_48BIT_UNSIGNED) || negb (qlen data =? 6)
       || (m_multiplier o =? 0) || (m_divider o =? 0)
    then o
    else scale o (VInt (le48 data 0))
  else if attributeId =? 0x0301 then
    if negb (dataType =? DATA_TYPE_24BIT_UNSIGNED) || negb (qlen data =? 3)
    then o
    else mkScaled (scaledBase o) (le24 data 0) (m_divider o)
  else if attributeId =? 0x0302 then
    if negb (dataType =? DATA_TYPE_24BIT_UNSIGNED) || negb (qlen data =? 3)
    then o
    else mkScaled (scaledBase o) (m_multiplier o) (le24 data 0)
  else o.
End Energy.

Module Power.
Definition parseAttribte (o : Scaled) (attributeId dataType : Z)
    (data : QByteArray) : Scaled :=
  if attributeId =? 0x050B then
    if negb (dataType =? DATA_TYPE_16BIT_SIGNED) || negb (qlen data =? 2)
       || (m_multiplier o =? 0) || (m_divider o =? 0)
    then o
    else scale o (VInt (to_qint16 (le16 data 0)))
  else if attributeId =? 0x0604 then
    if negb (dataType =? DATA_TYPE_16BIT_UNSIGNED) || negb (qlen data =? 2)
    then o
    else mkScaled (scaledBase o) (le16 data 0) (m_divider o)
  else if attributeId =? 0x0605 then
    if negb (dataType =? DATA_TYPE_16BIT_UNSIGNED) || negb (qlen data =? 2)
    then o
    else mkScaled (scaledBase o) (m_multiplier o) (le16 data 0)
  else o.
End Power.

End Properties.

Module PropertiesIAS.

Module ZoneStatus.
Definition parseCommand (p : PropertyObject) (commandId : Z)
    (payload : QByteArray) : PropertyObject :=
  let map := toMap (m_value p) in
  if negb (commandId =? 0x00) then p
  else
    let value := le16 payload 0 in
    let map := map_insert (m_name p) (VBool (negb (Z.land value 0x0001 =? 0))) map in
    let map := if negb (Z.land value 0x0004 =? 0)
               then map_insert "tamper" (VBool true) map else map in
    let map := if negb (Z.land value 0x0008 =? 0)
               then map_insert "batteryLow" (VBool true) map else map in
    setValue p (VMap map).
End ZoneStatus.

End PropertiesIAS.

Module PropertiesPTVO.

Module ChangePattern.
Definition parseAttribte (p : PropertyObject) (attributeId dataType : Z)
    (data : QByteArray) : PropertyObject :=
  if negb (attributeId =? 0x0000) || negb (dataType =? DATA_TYPE_BOOLEAN)
     || negb (qlen data =? 1)
  then p
  else setValue p (onOff data).
End ChangePattern.

Module SwitchAction.
Definition parseAttribte (p : PropertyObject) (attributeId dataType : Z)
    (data : QByteArray) : PropertyObject :=
  if negb (attributeId =? 0x0055) || negb (dataType =? DATA_TYPE_8BIT_UNSIGNED)
     || negb (qlen data =? 1)
  then p
  else setValue p (onOff data).
End SwitchAction.

End PropertiesPTVO.

Module PropertiesLUMI.

Module ButtonAction.
Definition parseAttribte (p : PropertyObject) (attributeId dataType : Z)
    (data : QByteArray) : PropertyObject :=
  if ((negb (attributeId =? 0x0000) || negb (dataType =? DATA_TYPE_BOOLEAN))
      && (negb (attributeId =? 0x8000) || negb (dataType =? DATA_TYPE_8BIT_UNSIGNED)))
     || negb (qlen data =? 1)
  then p
  else
    let v := at_ data 0 in
    if v =? 0x00 then setValue p (VString "on")
    else if v =? 0x01 then setValue p (VString "off")
    else if v =? 0x02 then setValue p (VString "doubleClick")
    else if v =? 0x03 then setValue p (VString "tripleClick")
    else if v =? 0x04 then setValue p (VString "quadrupleClick")
    else if v =? 0x80 then setValue p (VString "multipleClick")
    else p.
End ButtonAction.

Module SwitchAction.
Definition parseAttribte (p : PropertyObject) (attributeId dataType : Z)
    (data : QByteArray) : PropertyObject :=
  if negb (attributeId =? 0x0055) || negb (dataType =? DATA_TYPE_16BIT_UNSIGNED)
     || negb (qlen data =? 2)
  then p
  else
    let value := to_qint16 (le16 data 0) in
    if value =? 0x0000 then setValue p (VString "longClick")
    else if value =? 0x0001 then setValue p (VString "singleClick")
    else if value =? 0x0002 then setValue p (VString "doubleClick")
    else if value =? 0x0003 then setValue p (VString "tripleClick")
    else if value =? 0x00FF then setValue p (VString "release")
    else p.
End SwitchAction.

Module CubeMovement.
Definition parseAttribte (p : PropertyObject) (attributeId dataType : Z)
    (data : QByteArray) : PropertyObject :=
  if negb (attributeId =? 0x0055) || negb (dataType =? DATA_TYPE_16BIT_UNSIGNED)
     || negb (qlen data =? 2)
  then p
  else
    let value := to_qint16 (le16 data 0) in
    if value =? 0 then setValue p (VString "shake")
    else if value =? 2 then setValue p (VString "wake")
    else if value =? 3 then setValue p (VString "fall")
    else if 512 <=? value then setValue p (VString "tap")
    else if 256 <=? value then setValue p (VString "slide")
    else if 128 <=? value then setValue p (VString "flip")
    else if 64 <=? value then setValue p (VString "drop")
    else p.
End CubeMovement.

Module Unknown.
Definition parseAttribte (p : PropertyObject) (attributeId dataType : Z)
  (data : QByteArray) : PropertyObject := p.
End Unknown.

(** [DATA_TYPE_STRUCTURE] is an identifier of [zcl.h] whose value the
    specification does not list: the parser is stated for any value of it. *)
Module BatteryVoltage.
Definition parseAttribte (DATA_TYPE_STRUCTURE : Z) (p : PropertyObject)
    (attributeId dataType : Z) (data : QByteArray) : PropertyObject :=
  if attributeId =? 0xFF01 then
    if negb (dataType =? DATA_TYPE_CHARACTER_STRING) || (qlen data <? 4)
    then p
    else setValue p (VInt (percentage 2850 3200 (double_of_Z (le16 data 2))))
  else if attributeId =? 0xFF02 then
    if negb (dataType =? DATA_TYPE_STRUCTURE) || (qlen data <? 7)
    then p
    else setValue p (VInt (percentage 2850 3200 (double_of_Z (le16 data 5))))
  else p.
End BatteryVoltage.

End PropertiesLUMI.

Module PropertiesTUYA.

(** Modelled from the spec: [tuyaHeaderStruct] is declared in [property.h],
    which is not among the sources.  The specification gives the header as
    status:u8, transactionId:u8, dataPoint:u8, dataType:u8 and a 16-bit
    length that is big-endian on the wire, six bytes in all, followed by
    the value. *)
Record tuyaHeaderStruct : Type := mkTuyaHeader {
    status : Z;
    transactionId : Z;
    dataPoint : Z;
    dataType : Z;
    length : Z
  }.

Definition sizeof_tuyaHeaderStruct : nat := 6.

Definition header_of (payload : QByteArray) : tuyaHeaderStruct :=
  mkTuyaHeader (at_ payload 0) (at_ payload 1) (at_ payload 2) (at_ payload 3)
               (be16 payload 4).

Module Data.
Definition parseData (header : tuyaHeaderStruct) (data : QByteArray) : QVariant :=
  if dataType header =? 0x01 then
    if length header =? 1 then VBool (negb (at_ data 0 =? 0)) else Invalid
  else if dataType header =? 0x02 then
    if length header =? 4 then VUInt (be32 data 0) else Invalid
  else if dataType header =? 0x04 then
    if length header =? 1 then VInt (at_ data 0) else Invalid
  else Invalid.

(** [update] is the virtual member the subclasses override. *)
Definition parseCommand
    (update : PropertyObject -> Z -> QVariant -> option PropertyObject)
    (p : PropertyObject) (commandId : Z) (payload : QByteArray)
    : option PropertyObject :=
  let header := header_of payload in
  if negb (commandId =? 0x01) && negb (commandId =? 0x02) then Some p
  else
    let data := parseData header (mid payload sizeof_tuyaHeaderStruct) in
    if negb (isValid data) then Some p
    else update p (dataPoint header) data.
End Data.

(** The shared tail of the [update] members. *)
Definition store (p : PropertyObject) (map : list (string * QVariant)) : PropertyObject :=
  match map with
  | [] => p
  | _ => setValue p (VMap map)
  end.

Module NeoSiren.
(** [list.at(i)] is defined only inside the list: [None] stands for the
    out-of-range read. *)
Definition update (p : PropertyObject) (dataPoint : Z) (data : QVariant)
    : option PropertyObject :=
  let map := toMap (m_value p) in
  if dataPoint =? 0x05 then
    let i := toInt data in
    if (0 <=? i) && (i <? 3) then
      Some (store p (map_insert "volume"
              (VString (nth (Z.to_nat i) ["low"; "medium"; "high"] "")) map))
    else None
  else if dataPoint =? 0x07 then
    Some (store p (map_insert "duration" (VInt (toInt data)) map))
  else if dataPoint =? 0x0D then
    Some (store p (map_insert "alarm" (VBool (toBool data)) map))
  else if dataPoint =? 0x0F then
    Some (store p (map_insert "battery" (VInt (toInt data)) map))
  else if dataPoint =? 0x15 then
    Some (store p (map_insert "melody" (VInt (toInt data)) map))
  else Some (store p map).

Definition parseCommand := Data.parseCommand update.
End NeoSiren.

Module PresenceSensor.
Definition update (p : PropertyObject) (dataPoint : Z) (data : QVariant)
    : option PropertyObject :=
  let map := toMap (m_value p) in
  if dataPoint =? 0x01 then
    Some (store p (map_insert "occupancy" (VBool (toBool data)) map))
  else if dataPoint =? 0x02 then
    Some (store p (map_insert "sensitivity" (VInt (toInt data)) map))
  else if dataPoint =? 0x03 then
    Some (store p (map_insert "distanceMin" (VDouble (toDouble data / 100)%float) map))
  else if dataPoint =? 0x04 then
    Some (store p (map_insert "distanceMax" (VDouble (toDouble data / 100)%float) map))
  else if dataPoint =? 0x65 then
    Some (store p (map_insert "detectionDelay" (VInt (toInt data)) map))
  else if dataPoint =? 0x68 then
    Some (store p (map_insert "illuminance" (VInt (toInt data)) map))
  else Some (store p map).

Definition parseCommand := Data.parseCommand update.
End PresenceSensor.

Module PowerOnStatus.
Definition parseAttribte (p : PropertyObject) (attributeId dataType : Z)
    (data : QByteArray) : PropertyObject :=
  if negb (attributeId =? 0x8002) || negb (dataType =? DATA_TYPE_8BIT_ENUM)
     || negb (qlen data =? 1)
  then p
  else
    let v := at_ data 0 in
    if v =? 0x00 then setValue p (VString "off")
    else if v =? 0x01 then setValue p (VString "on")
    else if v =? 0x02 then setValue p (VString "previous")
    else p.
End PowerOnStatus.

Module SwitchType.
Definition parseAttribte (p : PropertyObject) (attributeId dataType : Z)
    (data : QByteArray) : PropertyObject :=
  if negb (attributeId =? 0x0030) || negb (dataType =? DATA_TYPE_8BIT_ENUM)
     || negb (qlen data =? 1)
  then p
  else
    let v := at_ data 0 in
    if v =? 0x00 then setValue p (VString "toggle")
    else if v =? 0x01 then setValue p (VString "state")
    else if v =? 0x02 then setValue p (VString "momentary")
    else p.
End SwitchType.

Module Unknown.
Definition parseAttribte (p : PropertyObject) (attributeId dataType : Z)
  (data : QByteArray) : PropertyObject := p.
End Unknown.

End PropertiesTUYA.

Module PropertiesOther.

Module KonkeButtonAction.
Definition parseAttribte (p : PropertyObject) (attributeId dataType : Z)
    (data : QByteArray) : PropertyObject :=
  if negb (attributeId =? 0x0000) && negb (dataType =? DATA_TYPE_BOOLEAN)
  then p
  else
    let v := at_ data 0 in
    if v =? 0x80 then setValue p (VString "singleClick")
    else if v =? 0x81 then setValue p (VString "doubleClick")
    else if v =? 0x82 then setValue p (VString "longClick")
    else p.
End KonkeButtonAction.

(** The tail of the two parsers below: an empty map is not stored. *)
Definition store (p : PropertyObject) (map : list (string * QVariant)) : PropertyObject :=
  match map with
  | [] => p
  | _ => setValue p (VMap map)
  end.

Module LifeControlAirQuality.
Definition parseAttribte (p : PropertyObject) (attributeId dataType : Z)
    (data : QByteArray) : PropertyObject :=
  let map := toMap (m_value p) in
  if (negb (dataType =? DATA_TYPE_16BIT_UNSIGNED)
      && negb (dataType =? DATA_TYPE_16BIT_SIGNED))
     || negb (qlen data =? 2)
  then p
  else
    let value := to_qint16 (le16 data 0) in
    let map :=
      if attributeId =? 0x0000
      then map_insert "tempertature" (VDouble (double_of_Z value / 100)%float) map
      else if attributeId =? 0x0001
      then map_insert "humidity" (VDouble (double_of_Z value / 100)%float) map
      else if attributeId =? 0x0002 then map_insert "eco2" (VInt value) map
      else if attributeId =? 0x0003 then map_insert "voc" (VInt value) map
      else map in
    store p map.
End LifeControlAirQuality.

Module PerenioSmartPlug.
Definition parseAttribte (p : PropertyObject) (attributeId dataType : Z)
    (data : QByteArray) : PropertyObject :=
  let map := toMap (m_value p) in
  let map :=
    if attributeId =? 0x0000 then
      if negb (dataType =? DATA_TYPE_8BIT_UNSIGNED) || negb (qlen data =? 1)
      then map
      else
        let v := at_ data 0 in
        if v =? 0x00 then map_insert "powerOnStatus" (VString "off") map
        else if v =? 0x01 then map_insert "powerOnStatus" (VString "on") map
        else if v =? 0x02 then map_insert "powerOnStatus" (VString "prevoious") map
        else map
    else if attributeId =? 0x0001 then
      if negb (dataType =? DATA_TYPE_8BIT_UNSIGNED) || negb (qlen data =? 1)
      then map
      else
        let v := at_ data 0 in
        let map := map_insert "alarmVoltateMin" (VBool (negb (Z.land v 0x01 =? 0))) map in
        let map := map_insert "alarmVoltateMax" (VBool (negb (Z.land v 0x02 =? 0))) map in
        let map := map_insert "alarmPowerMax" (VBool (negb (Z.land v 0x04 =? 0))) map in
        map_insert "alarmEnergyLimit" (VBool (negb (Z.land v 0x08 =? 0))) map
    else if attributeId =? 0x000E then
      if negb (dataType =? DATA_TYPE_32BIT_UNSIGNED) || negb (qlen data =? 4)
      then map
      else map_insert "energy" (VDouble (double_of_Z (le32 data 0) / 1000)%float) map
    else
      if negb (dataType =? DATA_TYPE_16BIT_UNSIGNED) || negb (qlen data =? 2)
      then map
      else
        let value := VInt (le16 data 0) in
        if attributeId =? 0x0003 then map_insert "voltage" value map
        else if attributeId =? 0x0004 then map_insert "voltageMin" value map
        else if attributeId =? 0x0005 then map_insert "voltageMax" value map
        else if attributeId =? 0x000A then map_insert "power" value map
        else if attributeId =? 0x000B then map_insert "powerMax" value map
        else if attributeId =? 0x000F then map_insert "energyLimit" value map
        else map in
  store p map.
End PerenioSmartPlug.

End PropertiesOther.

(** ** The ZCL frame header *)

(** Modelled from the spec: the frame-control bits, the cluster identifiers
    and the success status of [zcl.h], which is not among the sources, with
    the values the specification lists. *)
Definition FC_CLUSTER_SPECIFIC : Z := 0x01.
Definition FC_MANUFACTURER_SPECIFIC : Z := 0x04.
Definition FC_SERVER_TO_CLIENT : Z := 0x08.
Definition FC_DISABLE_DEFAULT_RESPONSE : Z := 0x10.

Definition CLUSTER_BASIC : Z := 0x0000.
Definition CLUSTER_GROUPS : Z := 0x0004.
Definition CLUSTER_TIME : Z := 0x000A.
Definition CLUSTER_OTA_UPGRADE : Z := 0x0019.
Definition CLUSTER_IAS_ZONE : Z := 0x0500.

Definition STATUS_SUCCESS : Z := 0x00.

(** Modelled from the spec: [zclHeader] of [zcl.cpp], which is not among the
    sources.  The header is frameControl:u8, the manufacturer code (16 bits,
    little-endian) when the frame control has FC_MANUFACTURER_SPECIFIC,
    transactionId:u8, commandId:u8. *)
Definition zclHeader (frameControl transactionId commandId manufacturerCode : Z)
    : QByteArray :=
  [byte_of_Z frameControl]
  ++ (if Z.land frameControl FC_MANUFACTURER_SPECIFIC =? 0 then []
      else bytes_le16 manufacturerCode)
  ++ [byte_of_Z transactionId; byte_of_Z commandId].

(** The command and status identifiers of [zcl.h] that the specification
    names without giving their values.  The engine is stated for any
    assignment of them; the ones that label the cases of one [switch] are
    pairwise distinct, as the cases of a [switch] are. *)
Class ZclNames : Type := {
  CMD_READ_ATTRIBUTES : Z;
  CMD_READ_ATTRIBUTES_RESPONSE : Z;
  CMD_WRITE_ATTRIBUTES : Z;
  CMD_WRITE_ATTRIBUTES_RESPONSE : Z;
  CMD_CONFIGURE_REPORTING : Z;
  CMD_CONFIGURE_REPORTING_RESPONSE : Z;
  CMD_REPORT_ATTRIBUTES : Z;
  CMD_DEFAULT_RESPONSE : Z;
  STATUS_UNSUPPORTED_ATTRIBUTE : Z;
  STATUS_NO_IMAGE_AVAILABLE : Z;
  POWER_SOURCE_BATTERY : Z;
  global_commands_quint8 :
    Forall (fun c => 0 <= c < 256)
      [CMD_CONFIGURE_REPORTING_RESPONSE; CMD_DEFAULT_RESPONSE; CMD_READ_ATTRIBUTES;
       CMD_READ_ATTRIBUTES_RESPONSE; CMD_REPORT_ATTRIBUTES;
       CMD_WRITE_ATTRIBUTES_RESPONSE];
  global_commands_distinct :
    NoDup [CMD_CONFIGURE_REPORTING_RESPONSE; CMD_DEFAULT_RESPONSE; CMD_READ_ATTRIBUTES;
           CMD_READ_ATTRIBUTES_RESPONSE; CMD_REPORT_ATTRIBUTES;
           CMD_WRITE_ATTRIBUTES_RESPONSE]
}.

(** ** The device model *)

(** Modelled from the spec: the enumerations and the classes of [device.h],
    which is not among the sources.  The records hold the members of
    [ReportingObject], [EndpointObject] and [DeviceObject] that [zigbee.cpp]
    reads and writes through their accessors.  The device's
    [descriptorReceived] is the field [nodeDescriptorReceived], to tell it
    from the endpoint's. *)
Inductive LogicalType : Type := Coordinator | Router | EndDevice.

Inductive ZoneStatus : Type := Unknown | SetAddress | Enroll | Enrolled.

Record ReportingObject : Type := mkReporting {
  reportingName : string;
  reportingClusterId : Z;
  reportingDataType : Z;
  reportingAttributes : list Z;
  minInterval : Z;
  maxInterval : Z;
  valueChange : Z
}.

Module Device.

Record EndpointObject (P : Type) : Type := mkEndpoint {
  id : Z;
  inClusters : list Z;
  outClusters : list Z;
  zoneStatus : ZoneStatus;
  descriptorReceived : bool;
  updated : bool;
  properties : list P;
  reportings : list ReportingObject
}.

Arguments mkEndpoint {P}.
Arguments id {P}.
Arguments inClusters {P}.
Arguments outClusters {P}.
Arguments zoneStatus {P}.
Arguments descriptorReceived {P}.
Arguments updated {P}.
Arguments properties {P}.
Arguments reportings {P}.

Record DeviceObject (P : Type) : Type := mkDevice {
  ieeeAddress : QByteArray;
  networkAddress : Z;
  name : string;
  manufacturerName : string;
  modelName : string;
  version : Z;
  powerSource : Z;
  logicalType : LogicalType;
  nodeDescriptorReceived : bool;
  endpointsReceived : bool;
  interviewFinished : bool;
  interviewEndpointId : Z;
  removed : bool;
  timerActive : bool;
  linkQuality : Z;
  endpoints : list (Z * EndpointObject P)
}.

Arguments mkDevice {P}.
Arguments ieeeAddress {P}.
Arguments networkAddress {P}.
Arguments name {P}.
Arguments manufacturerName {P}.
Arguments modelName {P}.
Arguments version {P}.
Arguments powerSource {P}.
Arguments logicalType {P}.
Arguments nodeDescriptorReceived {P}.
Arguments endpointsReceived {P}.
Arguments interviewFinished {P}.
Arguments interviewEndpointId {P}.
Arguments removed {P}.
Arguments timerActive {P}.
Arguments linkQuality {P}.
Arguments endpoints {P}.

Section Setters.
Context {P : Type}.

(** Modelled from the spec: the constructors [new EndpointObject(id, device)]
    and [new DeviceObject(ieeeAddress, networkAddress, name)] of [device.h]:
    a fresh object has empty strings, cleared flags and empty containers. *)
Definition newEndpoint (endpointId : Z) : EndpointObject P :=
  mkEndpoint endpointId [] [] Unknown false false [] [].

Definition newDevice (ieee : QByteArray) (nwk : Z) (deviceName : string)
    : DeviceObject P :=
  mkDevice ieee nwk deviceName "" "" 0 0 EndDevice false false false 0
           false false 0 [].

Definition setZoneStatus (z : ZoneStatus) (e : EndpointObject P) : EndpointObject P :=
  mkEndpoint (id e) (inClusters e) (outClusters e) z (descriptorReceived e)
             (updated e) (properties e) (reportings e).

Definition setUpdated (b : bool) (e : EndpointObject P) : EndpointObject P :=
  mkEndpoint (id e) (inClusters e) (outClusters e) (zoneStatus e)
             (descriptorReceived e) b (properties e) (reportings e).

Definition setProperties (ps : list P) (e : EndpointObject P) : EndpointObject P :=
  mkEndpoint (id e) (inClusters e) (outClusters e) (zoneStatus e)
             (descriptorReceived e) (updated e) ps (reportings e).

Definition setReportings (rs : list ReportingObject) (e : EndpointObject P)
    : EndpointObject P :=
  mkEndpoint (id e) (inClusters e) (outClusters e) (zoneStatus e)
             (descriptorReceived e) (updated e) (properties e) rs.

Definition setManufacturerName (s : string) (d : DeviceObject P) : DeviceObject P :=
  mkDevice (ieeeAddress d) (networkAddress d) (name d) s (modelName d) (version d)
           (powerSource d) (logicalType d) (nodeDescriptorReceived d)
           (endpointsReceived d) (interviewFinished d) (interviewEndpointId d)
           (removed d) (timerActive d) (linkQuality d) (endpoints d).

Definition setModelName (s : string) (d : DeviceObject P) : DeviceObject P :=
  mkDevice (ieeeAddress d) (networkAddress d) (name d) (manufacturerName d) s
           (version d) (powerSource d) (logicalType d) (nodeDescriptorReceived d)
           (endpointsReceived d) (interviewFinished d) (interviewEndpointId d)
           (removed d) (timerActive d) (linkQuality d) (endpoints d).

Definition setVersion (v : Z) (d : DeviceObject P) : DeviceObject P :=
  mkDevice (ieeeAddress d) (networkAddress d) (name d) (manufacturerName d)
           (modelName d) v (powerSource d) (logicalType d)
           (nodeDescriptorReceived d) (endpointsReceived d) (interviewFinished d)
           (interviewEndpointId d) (removed d) (timerActive d) (linkQuality d)
           (endpoints d).

Definition setPowerSource (v : Z) (d : DeviceObject P) : DeviceObject P :=
  mkDevice (ieeeAddress d) (networkAddress d) (name d) (manufacturerName d)
           (modelName d) (version d) v (logicalType d)
           (nodeDescriptorReceived d) (endpointsReceived d) (interviewFinished d)
           (interviewEndpointId d) (removed d) (timerActive d) (linkQuality d)
           (endpoints d).

Definition setLogicalType (t : LogicalType) (d : DeviceObject P) : DeviceObject P :=
  mkDevice (ieeeAddress d) (networkAddress d) (name d) (manufacturerName d)
           (modelName d) (version d) (powerSource d) t
           (nodeDescriptorReceived d) (endpointsReceived d) (interviewFinished d)
           (interviewEndpointId d) (removed d) (timerActive d) (linkQuality d)
           (endpoints d).

Definition setInterviewFinished (d : DeviceObject P) : DeviceObject P :=
  mkDevice (ieeeAddress d) (networkAddress d) (name d) (manufacturerName d)
           (modelName d) (version d) (powerSource d) (logicalType d)
           (nodeDescriptorReceived d) (endpointsReceived d) true
           (interviewEndpointId d) (removed d) (timerActive d) (linkQuality d)
           (endpoints d).

Definition setInterviewEndpointId (e : Z) (d : DeviceObject P) : DeviceObject P :=
  mkDevice (ieeeAddress d) (networkAddress d) (name d) (manufacturerName d)
           (modelName d) (version d) (powerSource d) (logicalType d)
           (nodeDescriptorReceived d) (endpointsReceived d) (interviewFinished d)
           e (removed d) (timerActive d) (linkQuality d) (endpoints d).

Definition setRemoved (b : bool) (d : DeviceObject P) : DeviceObject P :=
  mkDevice (ieeeAddress d) (networkAddress d) (name d) (manufacturerName d)
           (modelName d) (version d) (powerSource d) (logicalType d)
           (nodeDescriptorReceived d) (endpointsReceived d) (interviewFinished d)
           (interviewEndpointId d) b (timerActive d) (linkQuality d) (endpoints d).

(** [device->timer()->start(...)] and [device->timer()->stop()]. *)
Definition setTimerActive (b : bool) (d : DeviceObject P) : DeviceObject P :=
  mkDevice (ieeeAddress d) (networkAddress d) (name d) (manufacturerName d)
           (modelName d) (version d) (powerSource d) (logicalType d)
           (nodeDescriptorReceived d) (endpointsReceived d) (interviewFinished d)
           (interviewEndpointId d) (removed d) b (linkQuality d) (endpoints d).

Definition setLinkQuality (q : Z) (d : DeviceObject P) : DeviceObject P :=
  mkDevice (ieeeAddress d) (networkAddress d) (name d) (manufacturerName d)
           (modelName d) (version d) (powerSource d) (logicalType d)
           (nodeDescriptorReceived d) (endpointsReceived d) (interviewFinished d)
           (interviewEndpointId d) (removed d) (timerActive d) q (endpoints d).

Definition setEndpoints (es : list (Z * EndpointObject P)) (d : DeviceObject P)
    : DeviceObject P :=
  mkDevice (ieeeAddress d) (networkAddress d) (name d) (manufacturerName d)
           (modelName d) (version d) (powerSource d) (logicalType d)
           (nodeDescriptorReceived d) (endpointsReceived d) (interviewFinished d)
           (interviewEndpointId d) (removed d) (timerActive d) (linkQuality d) es.

(** The endpoint of a device with a given id ([device->endpoints().value]),
    and the update of one endpoint in place. *)
Definition endpoint (d : DeviceObject P) (e : Z) : EndpointObject P :=
  match qmap_find Z.compare e (endpoints d) with
  | Some x => x
  | None => newEndpoint e
  end.

Definition modifyEndpoint (e : Z) (f : EndpointObject P -> EndpointObject P)
    (d : DeviceObject P) : DeviceObject P :=
  setEndpoints (qmap_insert Z.compare e (f (endpoint d e)) (endpoints d)) d.

(** The setters the adapter's callbacks use. *)
Definition setName (s : string) (d : DeviceObject P) : DeviceObject P :=
  mkDevice (ieeeAddress d) (networkAddress d) s (manufacturerName d)
           (modelName d) (version d) (powerSource d) (logicalType d)
           (nodeDescriptorReceived d) (endpointsReceived d) (interviewFinished d)
           (interviewEndpointId d) (removed d) (timerActive d) (linkQuality d)
           (endpoints d).

Definition setNetworkAddress (a : Z) (d : DeviceObject P) : DeviceObject P :=
  mkDevice (ieeeAddress d) a (name d) (manufacturerName d)
           (modelName d) (version d) (powerSource d) (logicalType d)
           (nodeDescriptorReceived d) (endpointsReceived d) (interviewFinished d)
           (interviewEndpointId d) (removed d) (timerActive d) (linkQuality d)
           (endpoints d).

(** [device->setDescriptorReceived()] and [device->setEndpointsReceived()]. *)
Definition setNodeDescriptorReceived (d : DeviceObject P) : DeviceObject P :=
  mkDevice (ieeeAddress d) (networkAddress d) (name d) (manufacturerName d)
           (modelName d) (version d) (powerSource d) (logicalType d)
           true (endpointsReceived d) (interviewFinished d)
           (interviewEndpointId d) (removed d) (timerActive d) (linkQuality d)
           (endpoints d).

Definition setEndpointsReceived (d : DeviceObject P) : DeviceObject P :=
  mkDevice (ieeeAddress d) (networkAddress d) (name d) (manufacturerName d)
           (modelName d) (version d) (powerSource d) (logicalType d)
           (nodeDescriptorReceived d) true (interviewFinished d)
           (interviewEndpointId d) (removed d) (timerActive d) (linkQuality d)
           (endpoints d).

(** [endpoint->inClusters() = ...], [endpoint->outClusters() = ...] and
    [endpoint->setDescriptorReceived()]. *)
Definition setClusters (ins outs : list Z) (e : EndpointObject P) : EndpointObject P :=
  mkEndpoint (id e) ins outs (zoneStatus e) (descriptorReceived e)
             (updated e) (properties e) (reportings e).

Definition setDescriptorReceived (e : EndpointObject P) : EndpointObject P :=
  mkEndpoint (id e) (inClusters e) (outClusters e) (zoneStatus e) true
             (updated e) (properties e) (reportings e).

End Setters.

End Device.

(** ** The engine: [zigbee.cpp]

    The handlers are state transformers on [State]; what they do besides
    updating it is appended to the state's [effects].  Logging, the status
    LED and [updateLastSeen] change nothing that the handlers read, and are
    left out. *)

Module ZigBee.
Import Device.

(** A [Device] is a shared pointer: the state keeps the [DeviceObject]s in a
    store, and the catalogue, the requests and the signals refer to them by
    their index in it. *)
Definition Device := nat.

Inductive RequestType : Type := Binding | Data | Remove | LQI | Interview.

Inductive RequestStatus : Type := Pending | Sent | Finished | Aborted.

(** The payload of a request: a [BindingRequest], a [DataRequest], or the
    [Device] itself. *)
Inductive RequestPayload : Type :=
| BindingRequest (device : Device) (endpointId clusterId : Z)
    (dstAddress : QByteArray) (dstEndpointId : Z) (unbind : bool)
| DataRequest (device : Device) (endpointId clusterId : Z) (data : QByteArray)
    (name : string)
| DeviceRequest (device : Device).

Record RequestObject : Type := mkRequest {
  request : RequestPayload;
  type : RequestType;
  status : RequestStatus
}.

Definition setStatus (s : RequestStatus) (r : RequestObject) : RequestObject :=
  mkRequest (request r) (type r) s.

(** The calls on the adapter that answer with a [bool]. *)
Inductive AdapterCall : Type :=
| nodeDescriptorRequest (id networkAddress : Z)
| activeEndpointsRequest (id networkAddress : Z)
| simpleDescriptorRequest (id networkAddress endpointId : Z)
| dataRequest (id networkAddress endpointId clusterId : Z) (data : QByteArray)
| bindRequest (id networkAddress : Z) (ieeeAddress : QByteArray)
    (endpointId clusterId : Z) (dstAddress : QByteArray) (dstEndpointId : Z)
    (unbind : bool)
| leaveRequest (id networkAddress : Z) (ieeeAddress : QByteArray)
| lqiRequest (id networkAddress : Z).

(** What a handler does besides updating the state, in the order it does
    it: calls on the adapter, insertions into the request table, emitted
    signals, and the catalogue's persistence hooks. *)
Inductive Effect : Type :=
| Call (c : AdapterCall)
| Insert (id : Z) (r : RequestObject)
| deviceEvent (device : Device) (event : string)
| endpointUpdated (device : Device) (endpointId : Z)
| storeDatabase
| storeProperties.

Record State (P : Type) : Type := mkState {
  store : list (DeviceObject P);
  m_devices : list (QByteArray * Device);
  m_requests : list (Z * RequestObject);
  m_requestId : Z;
  m_requestTimer : bool;
  m_otaUpgradeFile : string;
  effects : list Effect
}.

Arguments mkState {P}.
Arguments store {P}.
Arguments m_devices {P}.
Arguments m_requests {P}.
Arguments m_requestId {P}.
Arguments m_requestTimer {P}.
Arguments m_otaUpgradeFile {P}.
Arguments effects {P}.

(** The structures of [zigbee.h] that the OTA responder reads field by
    field. *)
Record otaFileHeaderStruct : Type := mkOtaFileHeader {
  headerManufacturerCode : Z;
  headerImageType : Z;
  headerFileVersion : Z;
  headerImageSize : Z
}.

Record otaNextImageRequestStruct : Type := mkOtaNextImageRequest {
  requestManufacturerCode : Z;
  requestImageType : Z;
  requestFileVersion : Z
}.

Record otaNextImageResponseStruct : Type := mkOtaNextImageResponse {
  responseStatus : Z;
  responseManufacturerCode : Z;
  responseImageType : Z;
  responseFileVersion : Z;
  responseImageSize : Z
}.

Record otaImageBlockRequestStruct : Type := mkOtaImageBlockRequest {
  blockManufacturerCode : Z;
  blockImageType : Z;
  blockFileVersion : Z;
  blockFileOffset : Z;
  blockDataSizeMax : Z
}.

Record otaUpgradeEndRequestStruct : Type := mkOtaUpgradeEndRequest {
  endStatus : Z;
  endManufacturerCode : Z;
  endImageType : Z;
  endFileVersion : Z
}.

Record QDateTime : Type := mkDateTime {
  toTime_t : Z;
  offsetFromUtc : Z
}.

(** The virtual members of a [Property] that the engine calls. *)
Class PropertyClass (P : Type) : Type := {
  clusterId : P -> Z;
  value : P -> QVariant
}.

Class Parsers (P : Type) : Type := {
  parseAttribte : P -> Z -> Z -> QByteArray -> P;
  parseCommand : P -> Z -> QByteArray -> P
}.

(** The collaborators outside [zigbee.cpp]: the adapter, the device
    registry, the ZCL codec, the file system, the clock, Qt's strings, and
    the byte layout of the structures declared in the headers.  None of
    them is among the sources, so the engine is stated for any of them.
    [zclDataSize] (in [zcl.cpp]) returns the on-wire size of a value of a
    data type and the offset behind the length prefix, if the type has one:
    it never moves the offset backwards and never returns a negative size. *)
Class Environment (P : Type) : Type := {
  (** the adapter's answer to a call, given what was done before it *)
  adapter : list Effect -> AdapterCall -> bool;
  adapterIeeeAddress : Z;
  registry : string -> string -> Z -> list P * list ReportingObject;
  zclDataSize : Z -> QByteArray -> Z -> Z * Z;
  zclDataSize_offset :
    forall dataType payload offset,
      offset <= snd (zclDataSize dataType payload offset) /\
      0 <= fst (zclDataSize dataType payload offset);
  (** [QString(data).trimmed()] *)
  trimmed : QByteArray -> string;
  (** [QVariant::operator==] *)
  sameValue : QVariant -> QVariant -> bool;
  (** the content of a file that exists and can be opened *)
  file : string -> option QByteArray;
  (** the clock, as read while the record at an offset of the payload is
      handled *)
  currentDateTime : Z -> QDateTime;
  otaFileHeader : QByteArray -> otaFileHeaderStruct;
  otaNextImageRequest : QByteArray -> otaNextImageRequestStruct;
  otaImageBlockRequest : QByteArray -> otaImageBlockRequestStruct;
  otaUpgradeEndRequest : QByteArray -> otaUpgradeEndRequestStruct;
  otaNextImageResponse : otaNextImageResponseStruct -> QByteArray;
  otaImageBlockResponse : otaImageBlockRequestStruct -> Z -> QByteArray;
  otaUpgradeEndResponse : otaUpgradeEndRequestStruct -> QByteArray;
  (** the bytes [configureReporting] appends for one attribute *)
  configureReportingItem : ReportingObject -> Z -> QByteArray
}.

Section Engine.
Context {P : Type} {pc : PropertyClass P} {ps : Parsers P}.
Context {zcl : ZclNames} {env : Environment P}.

(** *** State access *)

Definition device (st : State P) (h : Device) : DeviceObject P :=
  nth h (store st) (newDevice [] 0 "").

Fixpoint replace {A : Type} (n : nat) (x : A) (l : list A) : list A :=
  match l, n with
  | [], _ => []
  | _ :: t, O => x :: t
  | y :: t, S m => y :: replace m x t
  end.

Definition setStore (l : list (DeviceObject P)) (st : State P) : State P :=
  mkState l (m_devices st) (m_requests st) (m_requestId st) (m_requestTimer st)
          (m_otaUpgradeFile st) (effects st).

Definition setDevices (l : list (QByteArray * Device)) (st : State P) : State P :=
  mkState (store st) l (m_requests st) (m_requestId st) (m_requestTimer st)
          (m_otaUpgradeFile st) (effects st).

Definition setRequests (l : list (Z * RequestObject)) (st : State P) : State P :=
  mkState (store st) (m_devices st) l (m_requestId st) (m_requestTimer st)
          (m_otaUpgradeFile st) (effects st).

Definition setRequestId (i : Z) (st : State P) : State P :=
  mkState (store st) (m_devices st) (m_requests st) i (m_requestTimer st)
          (m_otaUpgradeFile st) (effects st).

Definition setRequestTimer (b : bool) (st : State P) : State P :=
  mkState (store st) (m_devices st) (m_requests st) (m_requestId st) b
          (m_otaUpgradeFile st) (effects st).

Definition setOtaUpgradeFile (f : string) (st : State P) : State P :=
  mkState (store st) (m_devices st) (m_requests st) (m_requestId st)
          (m_requestTimer st) f (effects st).

Definition emit (e : Effect) (st : State P) : State P :=
  mkState (store st) (m_devices st) (m_requests st) (m_requestId st)
          (m_requestTimer st) (m_otaUpgradeFile st) (effects st ++ [e]).

Definition modifyDevice (h : Device) (f : DeviceObject P -> DeviceObject P)
    (st : State P) : State P :=
  setStore (replace h (f (device st h)) (store st)) st.

(** A call on the adapter: its answer, and the state with the call
    recorded. *)
Definition call (c : AdapterCall) (st : State P) : bool * State P :=
  (adapter (effects st) c, emit (Call c) st).

(** *** Enqueueing *)

(** [m_requests.insert(m_requestId++, ...)], the timer started before it. *)
Definition enqueue (r : RequestObject) (st : State P) : State P :=
  let st := setRequestTimer true st in
  let i := m_requestId st in
  let st := setRequestId ((i + 1) mod 256) st in
  emit (Insert i r) (setRequests (qmap_insert Z.compare i r (m_requests st)) st).

Definition enqueueBindingRequest (h : Device) (endpointId clusterId : Z)
    (dstAddress : QByteArray) (dstEndpointId : Z) (unbind : bool)
    (st : State P) : State P :=
  enqueue (mkRequest (BindingRequest h endpointId clusterId dstAddress dstEndpointId unbind)
                     Binding Pending) st.

Definition enqueueDataRequest (h : Device) (endpointId clusterId : Z)
    (data : QByteArray) (name : string) (st : State P) : State P :=
  enqueue (mkRequest (DataRequest h endpointId clusterId data name) Data Pending) st.

Definition enqueueDeviceRequest (h : Device) (type : RequestType) (st : State P)
    : State P :=
  enqueue (mkRequest (DeviceRequest h) type Pending) st.

Definition attributesRequest (id : Z) (attributes : list Z) (manufacturerCode : Z)
    : QByteArray :=
  zclHeader 0x00 id CMD_READ_ATTRIBUTES manufacturerCode
  ++ flat_map bytes_le16 attributes.

(** *** The interview *)

Definition interviewError (h : Device) (reason : string) (st : State P) : State P :=
  if negb (timerActive (device st h)) then st
  else modifyDevice h (setTimerActive false) (emit (deviceEvent h "interviewError") st).

Definition configureReporting (h : Device) (endpointId : Z) (reporting : ReportingObject)
    (st : State P) : State P :=
  let request := zclHeader 0x00 (m_requestId st) CMD_CONFIGURE_REPORTING 0 in
  let st := enqueueBindingRequest h endpointId (reportingClusterId reporting) [] 0 false st in
  let request :=
    request ++ flat_map (configureReportingItem reporting) (reportingAttributes reporting) in
  enqueueDataRequest h endpointId (reportingClusterId reporting) request
    (reportingName reporting ++ " reporting configuration") st.

(** Modelled from the spec: [m_devices->setupDevice(device)] of
    [device.cpp], which is not among the sources: every endpoint gets the
    properties and the reportings that the registry gives for the device's
    manufacturer and model names. *)
Definition setupDevice (d : DeviceObject P) : DeviceObject P :=
  setEndpoints
    (map (fun ke : Z * EndpointObject P =>
            let r := registry (manufacturerName d) (modelName d) (fst ke) in
            (fst ke, setReportings (snd r) (setProperties (fst r) (snd ke))))
         (endpoints d))
    d.

Definition interviewDevice (h : Device) (st : State P) : State P :=
  if Device.interviewFinished (device st h) then st
  else modifyDevice h (setTimerActive true) (enqueueDeviceRequest h Interview st).

Definition interviewFinished (h : Device) (st : State P) : State P :=
  let st := modifyDevice h setupDevice st in
  let st :=
    fold_left
      (fun st (ke : Z * EndpointObject P) =>
         fold_left (fun st r => configureReporting h (id (snd ke)) r st)
                   (reportings (snd ke)) st)
      (endpoints (device st h)) st in
  let st := emit (deviceEvent h "interviewFinished") st in
  let st := modifyDevice h (setTimerActive false) st in
  let st := modifyDevice h setInterviewFinished st in
  emit storeDatabase st.

(** The loop over the endpoints that list the IAS Zone cluster, and what
    follows it. *)
Fixpoint interviewZones (id : Z) (h : Device) (eps : list (Z * EndpointObject P))
    (st : State P) : bool * State P :=
  match eps with
  | [] => (true, interviewFinished h st)
  | (key, e) :: rest =>
      if negb (existsb (Z.eqb CLUSTER_IAS_ZONE) (inClusters e))
      then interviewZones id h rest st
      else
        let nwk := networkAddress (device st h) in
        match zoneStatus e with
        | Unknown =>
            let (ok, st) :=
              call (dataRequest id nwk key CLUSTER_IAS_ZONE
                      (attributesRequest id [0x0000; 0x0010] 0)) st in
            if ok then (true, st)
            else (false, interviewError h "read current IAS zone status request failed" st)
        | SetAddress =>
            let (ok, st) :=
              call (dataRequest id nwk (Device.id e) CLUSTER_IAS_ZONE
                      (zclHeader FC_DISABLE_DEFAULT_RESPONSE id CMD_WRITE_ATTRIBUTES 0
                       ++ bytes_le16 0x0010 ++ [byte_of_Z DATA_TYPE_IEEE_ADDRESS]
                       ++ bytes_le64 adapterIeeeAddress)) st in
            if ok then (true, st)
            else (false, interviewError h "write IAS zone CIE address request failed" st)
        | Enroll =>
            let (ok1, st) :=
              call (dataRequest id nwk (Device.id e) CLUSTER_IAS_ZONE
                      (zclHeader (Z.lor FC_CLUSTER_SPECIFIC FC_DISABLE_DEFAULT_RESPONSE)
                                 id 0x00 0
                       ++ [byte_of_Z 0x00; byte_of_Z 0x42])) st in
            let (ok, st) :=
              if ok1
              then call (dataRequest id nwk key CLUSTER_IAS_ZONE
                           (attributesRequest id [0x0000; 0x0010] 0)) st
              else (false, st) in
            if ok then (true, st)
            else (false, interviewError h "enroll IAS zone request failed" st)
        | Enrolled => interviewZones id h rest st
        end
  end.

Definition interviewRequest (id : Z) (h : Device) (st : State P) : bool * State P :=
  let d := device st h in
  if (manufacturerName d =? "")%string || (modelName d =? "")%string then
    if negb (nodeDescriptorReceived d) then
      let (ok, st) := call (nodeDescriptorRequest id (networkAddress d)) st in
      if ok then (true, st)
      else (false, interviewError h "node descriptor request failed" st)
    else if negb (endpointsReceived d) then
      let (ok, st) := call (activeEndpointsRequest id (networkAddress d)) st in
      if ok then (true, st)
      else (false, interviewError h "active endpoints request failed" st)
    else
      match find (fun ke : Z * EndpointObject P => negb (descriptorReceived (snd ke)))
                 (endpoints d) with
      | Some (key, e) =>
          let st := modifyDevice h (setInterviewEndpointId (Device.id e)) st in
          let (ok, st) := call (simpleDescriptorRequest id (networkAddress d) key) st in
          if ok then (true, st)
          else (false, interviewError h "endpoint simple descriptor request failed" st)
      | None =>
          match find (fun ke : Z * EndpointObject P =>
                        existsb (Z.eqb CLUSTER_BASIC) (inClusters (snd ke)))
                     (endpoints d) with
          | Some (key, e) =>
              let (ok, st) :=
                call (dataRequest id (networkAddress d) key CLUSTER_BASIC
                        (attributesRequest id [0x0001; 0x0004; 0x0005; 0x0007] 0)) st in
              if ok then (true, st)
              else (false, interviewError h "read basic attributes request failed" st)
          | None =>
              (false,
               interviewError h "device has empty manufacturer name or model name" st)
          end
      end
  else interviewZones id h (endpoints d) st.

(** *** Attributes *)

(** What a block that may [return] from the enclosing function leaves. *)
Inductive Flow : Type :=
| Return (st : State P)
| Continue (st : State P).

Definition tuyaModels : list string :=
  ["TS0001"; "TS0002"; "TS0004"; "TS0004";
   "TS0011"; "TS0012"; "TS0013"; "TS0014";
   "TS0201"; "TS0202"; "TS0203"; "TS0204"; "TS0205"; "TS0207";
   "TS0601"].

Definition tuyaPromoted : list string :=
  ["TS0001"; "TS0011"; "TS0201"; "TS0202"; "TS0207"; "TS0601"].

Definition contains (l : list string) (s : string) : bool := existsb (String.eqb s) l.

(** The [switch] of the Basic cluster branch. *)
Definition parseBasic (h : Device) (attributeId dataType : Z) (data : QByteArray)
    (st : State P) : Flow :=
  if attributeId =? 0x0001 then
    if negb (dataType =? DATA_TYPE_8BIT_UNSIGNED) then Return st
    else Continue (modifyDevice h (setVersion (at_ data 0)) st)
  else if attributeId =? 0x0004 then
    if negb (dataType =? DATA_TYPE_CHARACTER_STRING) then Return st
    else Continue (modifyDevice h (setManufacturerName (trimmed data)) st)
  else if attributeId =? 0x0005 then
    if negb (dataType =? DATA_TYPE_CHARACTER_STRING) then Return st
    else
      let st := modifyDevice h (setModelName (trimmed data)) st in
      if (manufacturerName (device st h) =? "")%string
         && String.prefix "lumi.sensor" (modelName (device st h))
      then
        let st := modifyDevice h (setPowerSource POWER_SOURCE_BATTERY) st in
        let st := modifyDevice h (setManufacturerName "LUMI") st in
        Return (interviewFinished h st)
      else Continue st
  else if attributeId =? 0x0007 then
    if negb (dataType =? DATA_TYPE_8BIT_UNSIGNED) && negb (dataType =? DATA_TYPE_8BIT_ENUM)
    then Return st
    else Continue (modifyDevice h (setPowerSource (at_ data 0)) st)
  else Continue st.

(** The rest of the Basic cluster branch, after the [switch]: once both
    names are known the TUYA model names are rewritten and the interview
    goes on. *)
Definition namesReceived (h : Device) (attributeId : Z) (st : State P) : State P :=
  let d := device st h in
  if negb (Device.interviewFinished d) && negb (manufacturerName d =? "")%string
     && negb (modelName d =? "")%string
     && ((attributeId =? 0x0004) || (attributeId =? 0x0005))
  then
    let st :=
      if negb (manufacturerName d =? "")%string && contains tuyaModels (modelName d)
      then
        let st :=
          if contains tuyaPromoted (modelName d)
          then modifyDevice h (setModelName (manufacturerName d)) st
          else st in
        modifyDevice h (setManufacturerName "TUYA") st
      else st in
    interviewDevice h st
  else st.

(** The loop over the properties of an endpoint, for an attribute and for a
    cluster command: each property of the cluster is handed the frame, and
    the endpoint is marked when a value changed. *)
Definition forward (f : P -> P) (cluster : Z) (e : EndpointObject P) : EndpointObject P :=
  fold_left
    (fun (e : EndpointObject P) (i : nat) =>
       match nth_error (properties e) i with
       | Some p =>
           if clusterId p =? cluster then
             let p' := f p in
             let e := setProperties (replace i p' (properties e)) e in
             if sameValue (value p') (value p) then e else setUpdated true e
           else e
       | None => e
       end)
    (seq 0 (List.length (properties e))) e.

Definition parseAttribute (h : Device) (endpointId : Z)
    (cluster attributeId dataType : Z) (data : QByteArray) (st : State P) : State P :=
  if cluster =? CLUSTER_BASIC then
    match parseBasic h attributeId dataType data st with
    | Return st => st
    | Continue st => namesReceived h attributeId st
    end
  else if (cluster =? CLUSTER_IAS_ZONE)
          && ((attributeId =? 0x0000) || (attributeId =? 0x0010)) then
    if attributeId =? 0x0000 then
      if negb (dataType =? DATA_TYPE_8BIT_ENUM) then st
      else
        modifyDevice h
          (modifyEndpoint endpointId
             (setZoneStatus (if at_ data 0 =? 0 then Enroll else Enrolled))) st
    else
      if negb (dataType =? DATA_TYPE_IEEE_ADDRESS) then st
      else
        let st :=
          if le64 data 0 =? adapterIeeeAddress mod 2 ^ 64 then st
          else modifyDevice h (modifyEndpoint endpointId (setZoneStatus SetAddress)) st in
        interviewDevice h st
  else if negb (Device.interviewFinished (device st h)) then st
  else
    modifyDevice h
      (modifyEndpoint endpointId
         (forward (fun p => parseAttribte p attributeId dataType data) cluster)) st.

(** *** Cluster commands *)

(** The OTA Upgrade branch of [clusterCommandReceived]. *)
Definition otaFrameControl : Z :=
  Z.lor (Z.lor FC_CLUSTER_SPECIFIC FC_SERVER_TO_CLIENT) FC_DISABLE_DEFAULT_RESPONSE.

Definition otaUpgradeCommand (h : Device) (endpointId transactionId commandId : Z)
    (payload : QByteArray) (st : State P) : State P :=
  let opened := file (m_otaUpgradeFile st) in
  let isOpen := match opened with Some _ => true | None => false end in
  let content := match opened with Some c => c | None => [] end in
  let header :=
    match opened with
    | Some c => otaFileHeader c
    | None => mkOtaFileHeader 0 0 0 0
    end in
  let noImage (command : Z) (st : State P) :=
    enqueueDataRequest h endpointId CLUSTER_OTA_UPGRADE
      (zclHeader otaFrameControl transactionId command 0
       ++ [byte_of_Z STATUS_NO_IMAGE_AVAILABLE]) "" st in
  if commandId =? 0x01 then
    let request := otaNextImageRequest payload in
    if negb isOpen
       || negb (requestManufacturerCode request =? headerManufacturerCode header)
       || negb (requestImageType request =? headerImageType header)
    then noImage 0x02 st
    else if requestFileVersion request =? headerFileVersion header
    then noImage 0x02 st
    else
      let response :=
        mkOtaNextImageResponse 0x00 (headerManufacturerCode header)
          (headerImageType header) (headerFileVersion header)
          (headerImageSize header) in
      enqueueDataRequest h endpointId CLUSTER_OTA_UPGRADE
        (zclHeader otaFrameControl transactionId 0x02 0
         ++ otaNextImageResponse response) "" st
  else if commandId =? 0x03 then
    let request := otaImageBlockRequest payload in
    if negb isOpen
       || negb (blockManufacturerCode request =? headerManufacturerCode header)
       || negb (blockImageType request =? headerImageType header)
       || negb (blockFileVersion request =? headerFileVersion header)
    then noImage 0x05 st
    else
      let block :=
        mid_len content (Z.to_nat (blockFileOffset request))
                (Z.to_nat (blockDataSizeMax request)) in
      enqueueDataRequest h endpointId CLUSTER_OTA_UPGRADE
        (zclHeader otaFrameControl transactionId 0x05 0
         ++ otaImageBlockResponse request (qlen block mod 256) ++ block) "" st
  else if commandId =? 0x06 then
    let request := otaUpgradeEndRequest payload in
    let st := setOtaUpgradeFile "" st in
    if negb (endStatus request =? 0) then st
    else
      enqueueDataRequest h endpointId CLUSTER_OTA_UPGRADE
        (zclHeader otaFrameControl transactionId 0x07 0
         ++ otaUpgradeEndResponse request) "" st
  else st.

Definition clusterCommandReceived (h : Device) (endpointId : Z)
    (cluster transactionId commandId : Z) (payload : QByteArray) (st : State P)
    : State P :=
  if negb (Device.interviewFinished (device st h)) then st
  else if cluster =? CLUSTER_GROUPS then st
  else if cluster =? CLUSTER_OTA_UPGRADE then
    otaUpgradeCommand h (id (endpoint (device st h) endpointId)) transactionId commandId payload st
  else
    modifyDevice h
      (modifyEndpoint endpointId
         (forward (fun p => parseCommand p commandId payload) cluster)) st.

(** *** Global commands *)

(** The record the Time cluster responder appends for one attribute. *)
Definition timeRecord (cluster attributeId : Z) (now : QDateTime) : QByteArray :=
  if (cluster =? CLUSTER_TIME)
     && ((attributeId =? 0x0000) || (attributeId =? 0x0002) || (attributeId =? 0x0007))
  then
    [byte_of_Z STATUS_SUCCESS]
    ++ (if attributeId =? 0x0000 then
          byte_of_Z DATA_TYPE_UTC_TIME
          :: bytes_le32 ((toTime_t now - 946684800) mod 2 ^ 32)
        else if attributeId =? 0x0002 then
          byte_of_Z DATA_TYPE_32BIT_SIGNED
          :: bytes_le32 (offsetFromUtc now mod 2 ^ 32)
        else
          byte_of_Z DATA_TYPE_32BIT_UNSIGNED
          :: bytes_le32 ((toTime_t now + offsetFromUtc now - 946684800) mod 2 ^ 32))
  else [byte_of_Z STATUS_UNSUPPORTED_ATTRIBUTE].


(** The loop of the CMD_READ_ATTRIBUTES case.  Its counter [i] is a
    [quint8]: past 254 it wraps to the start of the payload and the loop
    never ends, which is [None] here. *)
Fixpoint readAttributes (fuel : nat) (cluster : Z) (payload : QByteArray) (i : Z)
    (request : QByteArray) : option QByteArray :=
  if i <? qlen payload then
    match fuel with
    | O => None
    | S fuel =>
        let attributeId := le16 payload (Z.to_nat i) in
        let request := request ++ mid_len payload (Z.to_nat i) 2 in
        let request := request ++ timeRecord cluster attributeId (currentDateTime i) in
        readAttributes fuel cluster payload ((i + 2) mod 256) request
    end
  else Some request.

(** The loop of the CMD_READ_ATTRIBUTES_RESPONSE and CMD_REPORT_ATTRIBUTES
    cases.  Every turn removes at least three bytes of the payload. *)
Fixpoint reportAttributes (fuel : nat) (h : Device) (endpointId : Z)
    (cluster commandId : Z) (payload : QByteArray) (st : State P)
    : option (State P) :=
  if 2 <? qlen payload then
    match fuel with
    | O => None
    | S fuel =>
        if (commandId =? CMD_READ_ATTRIBUTES_RESPONSE) && negb (at_ payload 2 =? 0)
        then reportAttributes fuel h endpointId cluster commandId (skipn 3 payload) st
        else
          let dataType :=
            if commandId =? CMD_READ_ATTRIBUTES_RESPONSE
            then at_ payload 3 else at_ payload 2 in
          let offset := if commandId =? CMD_READ_ATTRIBUTES_RESPONSE then 4 else 3 in
          let attributeId := le16 payload 0 in
          let size := fst (zclDataSize dataType payload offset) in
          let offset := snd (zclDataSize dataType payload offset) in
          if negb (dataType =? DATA_TYPE_OCTET_STRING)
             && negb (dataType =? DATA_TYPE_CHARACTER_STRING) && (size =? 0)
          then Some st
          else
            let st :=
              parseAttribute h endpointId cluster attributeId dataType
                (mid_len payload (Z.to_nat offset) (Z.to_nat size)) st in
            reportAttributes fuel h endpointId cluster commandId
              (skipn (Z.to_nat (offset + size)) payload) st
    end
  else Some st.

Definition globalCommandReceived (h : Device) (endpointId : Z)
    (cluster transactionId commandId : Z) (payload : QByteArray) (st : State P)
    : option (State P) :=
  if (commandId =? CMD_CONFIGURE_REPORTING_RESPONSE) || (commandId =? CMD_DEFAULT_RESPONSE)
  then Some st
  else if commandId =? CMD_READ_ATTRIBUTES then
    match readAttributes 128 cluster payload 0
            (zclHeader (Z.lor FC_SERVER_TO_CLIENT FC_DISABLE_DEFAULT_RESPONSE)
                       transactionId CMD_READ_ATTRIBUTES_RESPONSE 0) with
    | Some request =>
        Some (enqueueDataRequest h (id (endpoint (device st h) endpointId)) cluster
                request "" st)
    | None => None
    end
  else if (commandId =? CMD_READ_ATTRIBUTES_RESPONSE) || (commandId =? CMD_REPORT_ATTRIBUTES)
  then reportAttributes (List.length payload) h endpointId cluster commandId payload st
  else if commandId =? CMD_WRITE_ATTRIBUTES_RESPONSE then
    if (cluster =? CLUSTER_IAS_ZONE) && (at_ payload 0 =? 0)
    then Some (interviewDevice h
                 (modifyDevice h (modifyEndpoint endpointId (setZoneStatus Enroll)) st))
    else Some st
  else Some st.

(** *** Frames from the adapter *)

(** Modelled from the spec: [m_devices->byNetwork(networkAddress)] of
    [device.cpp], which is not among the sources: the device of the
    catalogue with that network address, if there is one. *)
Definition byNetwork (networkAddress : Z) (st : State P) : option Device :=
  option_map snd
    (find (fun kd : QByteArray * Device =>
             Device.networkAddress (device st (snd kd)) =? networkAddress)
          (m_devices st)).

Definition defaultResponse (transactionId commandId : Z) : QByteArray :=
  zclHeader (Z.lor FC_SERVER_TO_CLIENT FC_DISABLE_DEFAULT_RESPONSE) transactionId
            CMD_DEFAULT_RESPONSE 0
  ++ [byte_of_Z commandId; byte_of_Z 0x00].

Definition messageReveived (networkAddress endpointId cluster linkQuality : Z)
    (data : QByteArray) (st : State P) : option (State P) :=
  let frameControl := at_ data 0 in
  match byNetwork networkAddress st with
  | None => Some st
  | Some h =>
      if removed (device st h) then Some st
      else
        (* m_devices->endpoint(device, endpointId): the endpoint, created
           when the device has none with that id *)
        let st := modifyDevice h (modifyEndpoint endpointId (fun e => e)) st in
        let manufacturerSpecific :=
          negb (Z.land frameControl FC_MANUFACTURER_SPECIFIC =? 0) in
        let transactionId := if manufacturerSpecific then at_ data 3 else at_ data 1 in
        let commandId := if manufacturerSpecific then at_ data 4 else at_ data 2 in
        let payload := if manufacturerSpecific then mid data 5 else mid data 3 in
        let handled :=
          if negb (Z.land frameControl FC_CLUSTER_SPECIFIC =? 0)
          then Some (clusterCommandReceived h endpointId cluster transactionId commandId
                       payload st)
          else globalCommandReceived h endpointId cluster transactionId commandId
                 payload st in
        match handled with
        | None => None
        | Some st =>
            let st := modifyDevice h (setLinkQuality linkQuality) st in
            let e := endpoint (device st h) endpointId in
            let st :=
              if updated e
              then emit (endpointUpdated h (id e)) (emit storeProperties st)
              else st in
            if (negb (Z.land frameControl FC_CLUSTER_SPECIFIC =? 0)
                || (commandId =? CMD_REPORT_ATTRIBUTES))
               && (Z.land frameControl FC_DISABLE_DEFAULT_RESPONSE =? 0)
            then
              Some (enqueueDataRequest h (id e) cluster
                      (defaultResponse transactionId commandId) "" st)
            else Some st
        end
  end.

(** *** The adapter's start and its callbacks *)

(** The loops that erase entries while they walk a [QMap]:
    [erase(it++)] leaves the iterator on the entry after the erased one,
    and the loop's own [it++] then steps over that entry. *)
Fixpoint eraseLoop {A : Type} (erased : A -> bool) (l : list A) : list A :=
  match l with
  | [] => []
  | x :: rest =>
      if erased x then
        match rest with
        | [] => []
        | y :: rest' => y :: eraseLoop erased rest'
        end
      else x :: eraseLoop erased rest
  end.

Fixpoint bytes_compare (a b : QByteArray) : comparison :=
  match a, b with
  | [], [] => Eq
  | [], _ :: _ => Lt
  | _ :: _, [] => Gt
  | x :: a', y :: b' =>
      match Z.compare (quint8_of_byte x) (quint8_of_byte y) with
      | Eq => bytes_compare a' b'
      | c => c
      end
  end.

Definition coordinatorReady (st : State P) : State P :=
  let ieeeAddress := bytes_be64 adapterIeeeAddress in
  let h := List.length (store st) in
  let st := setStore (store st ++ [newDevice ieeeAddress 0x0000 "HOMEd Coordinator"]) st in
  let st :=
    setDevices
      (eraseLoop
         (fun kd : QByteArray * Device =>
            match bytes_compare (fst kd) ieeeAddress with
            | Eq => true
            | _ =>
                match logicalType (device st (snd kd)) with
                | Coordinator => true
                | _ => false
                end
            end)
         (m_devices st)) st in
  let st := modifyDevice h (setLogicalType Coordinator) st in
  let st := modifyDevice h setInterviewFinished st in
  let st := setDevices (qmap_insert bytes_compare ieeeAddress h (m_devices st)) st in
  let st := match m_requests st with [] => st | _ => setRequestTimer true st end in
  emit storeDatabase st.

(** The device a request refers to. *)
Definition requestDevice (r : RequestObject) : Device :=
  match request r with
  | BindingRequest h _ _ _ _ _ => h
  | DataRequest h _ _ _ _ => h
  | DeviceRequest h => h
  end.

Definition setRequestStatus (key : Z) (s : RequestStatus) (st : State P) : State P :=
  match qmap_find Z.compare key (m_requests st) with
  | Some r => setRequests (qmap_insert Z.compare key (setStatus s r) (m_requests st)) st
  | None => st
  end.

Definition requestFinished (id status : Z) (st : State P) : State P :=
  match qmap_find Z.compare id (m_requests st) with
  | None => st
  | Some r =>
      match ZigBee.status r with
      | Finished => st
      | _ =>
          let st :=
            match type r with
            | Remove =>
                let h := requestDevice r in
                if removed (device st h) then st
                else emit storeDatabase (modifyDevice h (setRemoved true) st)
            | _ => st
            end in
          setRequestStatus id Finished st
      end
  end.

(** *** The scheduler tick *)

(** What the first loop of [handleRequests] does with the entry under the
    iterator. *)
Definition sendRequest (key : Z) (r : RequestObject) (st : State P) : State P :=
  match status r with
  | Pending =>
      let h := requestDevice r in
      let d := device st h in
      let (ok, st) :=
        match type r, request r with
        | Binding, BindingRequest _ endpointId clusterId dstAddress dstEndpointId unbind =>
            call (bindRequest key (networkAddress d) (ieeeAddress d) endpointId clusterId
                    dstAddress dstEndpointId unbind) st
        | Data, DataRequest _ endpointId clusterId data _ =>
            call (dataRequest key (networkAddress d) endpointId clusterId data) st
        | Remove, DeviceRequest _ =>
            call (leaveRequest key (networkAddress d) (ieeeAddress d)) st
        | LQI, DeviceRequest _ => call (lqiRequest key (networkAddress d)) st
        | Interview, DeviceRequest _ => interviewRequest key h st
        | _, _ => (true, st)
        end in
      let st := if ok then st else setRequestStatus key Aborted st in
      match qmap_find Z.compare key (m_requests st) with
      | Some r' =>
          match status r' with
          | Finished | Aborted => st
          | _ => setRequestStatus key Sent st
          end
      | None => st
      end
  | _ => st
  end.

(** The first loop: the iterator walks the table in key order, and sees the
    entries that the interview inserts past it on the way. *)
Fixpoint sendRequests (fuel : nat) (from : Z) (st : State P) : State P :=
  match fuel with
  | O => st
  | S fuel =>
      match find (fun kr : Z * RequestObject => from <=? fst kr) (m_requests st) with
      | Some (key, r) => sendRequests fuel (key + 1) (sendRequest key r st)
      | None => st
      end
  end.

Definition finishedOrAborted (kr : Z * RequestObject) : bool :=
  match status (snd kr) with
  | Finished | Aborted => true
  | _ => false
  end.

Definition handleRequests (st : State P) : State P :=
  let st := sendRequests 256 0 st in
  let st := setRequests (eraseLoop finishedOrAborted (m_requests st)) st in
  setRequestTimer false st.

(** *** What the specification says of the states

    From the specification's words: a device is identified when its
    manufacturer name and its model name are both non-empty; the invariant
    it gives is that every device of the catalogue whose interview is
    finished is identified. *)
Definition identified (d : DeviceObject P) : Prop :=
  manufacturerName d <> "" /\ modelName d <> "".

Definition finishedAreIdentified (st : State P) : Prop :=
  forall (ieee : QByteArray) (h : Device),
    In (ieee, h) (m_devices st) ->
    Device.interviewFinished (device st h) = true ->
    identified (device st h).

(** The device a finished interview leaves. *)
Definition interviewed (d : DeviceObject P) : DeviceObject P :=
  setInterviewFinished (setTimerActive false (setupDevice d)).

(** A Default Response among the effects: the insertion of a data request
    whose frame is one. *)
Definition isDefaultResponse (e : Effect) : Prop :=
  exists (i : Z) (h : Device) (endpointId cluster transactionId commandId : Z)
         (name : string) (s : RequestStatus),
    e = Insert i (mkRequest (DataRequest h endpointId cluster
                               (defaultResponse transactionId commandId) name)
                            Data s).

(** A step from [st] to [st'] adds effects that all satisfy [Q]. *)
Definition adds (Q : Effect -> Prop) (st st' : State P) : Prop :=
  exists delta, effects st' = effects st ++ delta /\ Forall Q delta.

End Engine.

(** *** The adapter's callbacks and the control interface

    The members of [DeviceList] that these functions call and the
    specification does not describe are parameters: the search of a device
    by name, the removal of a device from the list, and the name a
    [DeviceObject] gets when it is constructed without one.  The manufacturer
    code of a device and the profile and device identifiers of an endpoint,
    which the callbacks store and neither file reads, are not among the
    members of the records. *)
Module Handlers.
Import Device.

Section Handlers.
Context {P : Type} {pc : PropertyClass P} {ps : Parsers P}.
Context {zcl : ZclNames} {env : Environment P}.

Variable byName : string -> State P -> option Device.
Variable removeFromList : Device -> State P -> State P.
Variable defaultName : QByteArray -> string.

(** The guard that opens the functions of the control interface: the device
    of that name, unless there is none, it is removed, or it is the
    coordinator. *)
Definition controlled (deviceName : string) (st : State P) : option Device :=
  match byName deviceName st with
  | None => None
  | Some h =>
      if removed (device st h) then None
      else
        match logicalType (device st h) with
        | Coordinator => None
        | _ => Some h
        end
  end.

Definition setDeviceName (deviceName newName : string) (store : bool) (st : State P)
    : State P :=
  match controlled deviceName st with
  | None => st
  | Some h =>
      let st := modifyDevice h (setName newName) st in
      if negb store then st else emit storeDatabase st
  end.

Definition removeDevice (deviceName : string) (force : bool) (st : State P) : State P :=
  match controlled deviceName st with
  | None => st
  | Some h =>
      if negb force then enqueueDeviceRequest h Remove st
      else emit storeDatabase (removeFromList h st)
  end.

Definition updateDevice (deviceName : string) (reportings : bool) (st : State P)
    : State P :=
  match controlled deviceName st with
  | None => st
  | Some h =>
      let st := modifyDevice h setupDevice st in
      if negb reportings then st
      else
        fold_left
          (fun st (ke : Z * EndpointObject P) =>
             fold_left (fun st r => configureReporting h (id (snd ke)) r st)
                       (Device.reportings (snd ke)) st)
          (endpoints (device st h)) st
  end.

Definition groupControl (deviceName : string) (endpointId groupId : Z) (remove : bool)
    (st : State P) : State P :=
  match controlled deviceName st with
  | None => st
  | Some h =>
      enqueueDataRequest h (if endpointId =? 0 then 1 else endpointId) CLUSTER_GROUPS
        (zclHeader FC_CLUSTER_SPECIFIC (m_requestId st) (if remove then 0x03 else 0x00) 0
         ++ bytes_le16 groupId ++ (if remove then [] else [x00]))
        "" st
  end.

Definition removeAllGroups (deviceName : string) (endpointId : Z) (st : State P)
    : State P :=
  match controlled deviceName st with
  | None => st
  | Some h =>
      enqueueDataRequest h (if endpointId =? 0 then 1 else endpointId) CLUSTER_GROUPS
        (zclHeader FC_CLUSTER_SPECIFIC (m_requestId st) 0x04 0)
        "remove all groups request" st
  end.

(** [pollRequest], for the cluster and the attributes of the [Poll]. *)
Definition pollRequest (h : Device) (endpointId cluster : Z) (attributes : list Z)
    (st : State P) : State P :=
  enqueueDataRequest h endpointId cluster
    (attributesRequest (m_requestId st) attributes 0) "" st.

Definition updateNeighbors (st : State P) : State P :=
  fold_left
    (fun st (kd : QByteArray * Device) =>
       match logicalType (device st (snd kd)) with
       | EndDevice => st
       | _ => enqueueDeviceRequest (snd kd) LQI st
       end)
    (m_devices st) st.

Definition deviceJoined (ieeeAddress : QByteArray) (networkAddress : Z) (st : State P)
    : State P :=
  let (h, st) :=
    match qmap_find bytes_compare ieeeAddress (m_devices st) with
    | None =>
        let h := List.length (store st) in
        let d := newDevice ieeeAddress networkAddress (defaultName ieeeAddress) in
        let st := setStore (store st ++ [d]) st in
        (h, setDevices (qmap_insert bytes_compare ieeeAddress h (m_devices st)) st)
    | Some h =>
        (h, if removed (device st h) then modifyDevice h (setRemoved false) st else st)
    end in
  let st :=
    if negb (Device.networkAddress (device st h) =? networkAddress)
    then modifyDevice h (setNetworkAddress networkAddress) st
    else st in
  let st :=
    if negb (Device.interviewFinished (device st h)) && negb (timerActive (device st h))
    then interviewDevice h st
    else st in
  emit (deviceEvent h "deviceJoined") st.

Definition deviceLeft (ieeeAddress : QByteArray) (st : State P) : State P :=
  match qmap_find bytes_compare ieeeAddress (m_devices st) with
  | None => st
  | Some h =>
      if removed (device st h) then st
      else
        let st := modifyDevice h (setTimerActive false) st in
        let st := emit (deviceEvent h "deviceLeft") st in
        emit storeDatabase (removeFromList h st)
  end.

Definition nodeDescriptorReceived (networkAddress : Z) (logicalType : LogicalType)
    (manufacturerCode : Z) (st : State P) : State P :=
  match byNetwork networkAddress st with
  | None => st
  | Some h =>
      if removed (device st h) then st
      else
        let st := modifyDevice h (setLogicalType logicalType) st in
        let st := modifyDevice h setNodeDescriptorReceived st in
        interviewDevice h st
  end.

Definition activeEndpointsReceived (networkAddress : Z) (data : QByteArray)
    (st : State P) : State P :=
  match byNetwork networkAddress st with
  | None => st
  | Some h =>
      if removed (device st h) then st
      else
        let st :=
          fold_left
            (fun st (b : byte) =>
               let endpointId := quint8_of_byte b in
               match qmap_find Z.compare endpointId (endpoints (device st h)) with
               | Some _ => st
               | None =>
                   modifyDevice h
                     (fun d =>
                        setEndpoints
                          (qmap_insert Z.compare endpointId (newEndpoint endpointId)
                                       (endpoints d)) d) st
               end)
            data st in
        let st := modifyDevice h setEndpointsReceived st in
        interviewDevice h st
  end.

Definition simpleDescriptorReceived (networkAddress endpointId profileId deviceId : Z)
    (inClusters outClusters : list Z) (st : State P) : State P :=
  match byNetwork networkAddress st with
  | None => st
  | Some h =>
      if removed (device st h) then st
      else
        let e :=
          if endpointId =? 0 then interviewEndpointId (device st h) else endpointId in
        let st :=
          modifyDevice h
            (modifyEndpoint e
               (fun x => setDescriptorReceived (setClusters inClusters outClusters x)))
            st in
        interviewDevice h st
  end.

End Handlers.

End Handlers.

End ZigBee.

(** ** The mapping the specification gives for the battery voltage

    From the specification's words: a raw voltage in millivolts mapped
    linearly from [min]...[max] onto 0...100 percent, clipped at both
    ends. *)
Definition linearPercent (min max millivolts : Z) : Z :=
  (Z.min (Z.max millivolts min) max - min) * 100 / (max - min).

(** ** A concrete installation

    A property set, the ZCL identifiers with their standard values, and an
    environment, on which the engine runs by computation. *)

Module Scenario.
Import Device.
Import ZigBee.

Inductive Kind : Type :=
| batteryVoltage
| status
| level
| switchAction
| lumiCubeMovement
| konkeButtonAction.

Record Property : Type := mkScenarioProperty {
  kind : Kind;
  object : PropertyObject
}.

(** The virtual dispatch: a class that does not override a member inherits
    the base class's, which does nothing. *)
Definition parseAttribte (p : Property) (attributeId dataType : Z) (data : QByteArray)
    : Property :=
  mkScenarioProperty (kind p)
    (match kind p with
     | batteryVoltage =>
         Properties.BatteryVoltage.parseAttribte (object p) attributeId dataType data
     | status => Properties.Status.parseAttribte (object p) attributeId dataType data
     | level => Properties.Level.parseAttribte (object p) attributeId dataType data
     | lumiCubeMovement =>
         PropertiesLUMI.CubeMovement.parseAttribte (object p) attributeId dataType data
     | konkeButtonAction =>
         PropertiesOther.KonkeButtonAction.parseAttribte (object p) attributeId dataType data
     | switchAction => object p
     end).

Definition parseCommand (p : Property) (commandId : Z) (payload : QByteArray) : Property :=
  mkScenarioProperty (kind p)
    (match kind p with
     | switchAction => Properties.SwitchAction.parseCommand (object p) commandId payload
     | _ => object p
     end).

#[export] Instance propertyClass : PropertyClass Property :=
  {| clusterId := fun p => m_clusterId (object p);
     value := fun p => m_value (object p) |}.

#[export] Instance parsers : Parsers Property :=
  {| ZigBee.parseAttribte := parseAttribte;
     ZigBee.parseCommand := parseCommand |}.

(** Parsers that ignore every frame. *)
Definition idle : Parsers Property :=
  {| ZigBee.parseAttribte := fun p _ _ _ => p;
     ZigBee.parseCommand := fun p _ _ => p |}.

#[export] Instance names : ZclNames.
Proof.
  refine {| CMD_READ_ATTRIBUTES := 0x00;
            CMD_READ_ATTRIBUTES_RESPONSE := 0x01;
            CMD_WRITE_ATTRIBUTES := 0x02;
            CMD_WRITE_ATTRIBUTES_RESPONSE := 0x04;
            CMD_CONFIGURE_REPORTING := 0x06;
            CMD_CONFIGURE_REPORTING_RESPONSE := 0x07;
            CMD_REPORT_ATTRIBUTES := 0x0A;
            CMD_DEFAULT_RESPONSE := 0x0B;
            STATUS_UNSUPPORTED_ATTRIBUTE := 0x86;
            STATUS_NO_IMAGE_AVAILABLE := 0x98;
            POWER_SOURCE_BATTERY := 0x03 |}.
  - repeat constructor; lia.
  - repeat constructor; simpl; intuition lia.
Defined.

Fixpoint QVariant_eqb (a b : QVariant) : bool :=
  match a, b with
  | Invalid, Invalid => true
  | VBool x, VBool y => Bool.eqb x y
  | VInt x, VInt y => x =? y
  | VUInt x, VUInt y => x =? y
  | VDouble x, VDouble y => PrimFloat.eqb x y
  | VString x, VString y => String.eqb x y
  | VList x, VList y =>
      (fix all2 (l1 l2 : list QVariant) : bool :=
         match l1, l2 with
         | [], [] => true
         | v1 :: l1, v2 :: l2 => QVariant_eqb v1 v2 && all2 l1 l2
         | _, _ => false
         end) x y
  | VMap x, VMap y =>
      (fix all2 (l1 l2 : list (string * QVariant)) : bool :=
         match l1, l2 with
         | [], [] => true
         | (k1, v1) :: l1, (k2, v2) :: l2 =>
             String.eqb k1 k2 && QVariant_eqb v1 v2 && all2 l1 l2
         | _, _ => false
         end) x y
  | _, _ => false
  end.

(** The sizes of the data types the specification lists; the string types
    carry a one-byte length prefix. *)
Definition zclDataSize (dataType : Z) (payload : QByteArray) (offset : Z) : Z * Z :=
  if (dataType =? DATA_TYPE_OCTET_STRING) || (dataType =? DATA_TYPE_CHARACTER_STRING)
  then (at_ payload (Z.to_nat offset), offset + 1)
  else
    (if existsb (Z.eqb dataType) [0x10; 0x18; 0x20; 0x28; 0x30] then 1
     else if existsb (Z.eqb dataType) [0x21; 0x29] then 2
     else if dataType =? 0x22 then 3
     else if existsb (Z.eqb dataType) [0x23; 0x2B; 0x39; 0xE2] then 4
     else if dataType =? 0x25 then 6
     else if dataType =? 0xF0 then 8
     else 0,
     offset).

Definition isSpace (a : ascii) : bool :=
  let n := nat_of_ascii a in
  Nat.eqb n 32 || (Nat.leb 9 n && Nat.leb n 13).

Fixpoint untilNul (data : QByteArray) : list ascii :=
  match data with
  | [] => []
  | b :: rest =>
      if quint8_of_byte b =? 0 then [] else ascii_of_byte b :: untilNul rest
  end.

Fixpoint dropSpaces (l : list ascii) : list ascii :=
  match l with
  | [] => []
  | a :: rest => if isSpace a then dropSpaces rest else l
  end.

Definition trimmed (data : QByteArray) : string :=
  string_of_list_ascii (rev (dropSpaces (rev (dropSpaces (untilNul data))))).

(** An image file: the manufacturer code, image type, file version and
    image size at their places in the header. *)
Definition firmware : QByteArray :=
  repeat x00 10 ++ bytes_le16 0x115F ++ bytes_le16 0x0001 ++ bytes_le32 0x00010002
  ++ repeat x00 34 ++ bytes_le32 1024 ++ repeat x2a 968.

Definition coordinatorAddress : Z := 0x00124B0001020304.

(** The environment of the scenarios: an adapter that takes every call, an
    empty registry, one image file.  The item [configureReporting] appends
    for an attribute is the packed structure up to its value change (the
    direction, the attribute, the data type, the two intervals: eight
    bytes) and as many bytes of the value change as the data type has. *)
#[export] Instance environment : Environment Property.
Proof.
  refine {| adapter := fun _ _ => true;
            adapterIeeeAddress := coordinatorAddress;
            registry := fun _ _ _ => ([], []);
            ZigBee.zclDataSize := zclDataSize;
            ZigBee.trimmed := trimmed;
            sameValue := QVariant_eqb;
            file := fun name => if (name =? "firmware.ota")%string then Some firmware else None;
            currentDateTime := fun _ => mkDateTime 1700000000 10800;
            otaFileHeader := fun c =>
              mkOtaFileHeader (le16 c 10) (le16 c 12) (le32 c 14) (le32 c 52);
            otaNextImageRequest := fun p =>
              mkOtaNextImageRequest (le16 p 1) (le16 p 3) (le32 p 5);
            otaImageBlockRequest := fun p =>
              mkOtaImageBlockRequest (le16 p 1) (le16 p 3) (le32 p 5) (le32 p 9) (at_ p 13);
            otaUpgradeEndRequest := fun p =>
              mkOtaUpgradeEndRequest (at_ p 0) (le16 p 1) (le16 p 3) (le32 p 5);
            otaNextImageResponse := fun r =>
              [byte_of_Z (responseStatus r)] ++ bytes_le16 (responseManufacturerCode r)
              ++ bytes_le16 (responseImageType r) ++ bytes_le32 (responseFileVersion r)
              ++ bytes_le32 (responseImageSize r);
            otaImageBlockResponse := fun r n =>
              [x00] ++ bytes_le16 (blockManufacturerCode r) ++ bytes_le16 (blockImageType r)
              ++ bytes_le32 (blockFileVersion r) ++ bytes_le32 (blockFileOffset r)
              ++ [byte_of_Z n];
            otaUpgradeEndResponse := fun r =>
              bytes_le16 (endManufacturerCode r) ++ bytes_le16 (endImageType r)
              ++ bytes_le32 (endFileVersion r) ++ bytes_le32 0 ++ bytes_le32 0;
            configureReportingItem := fun r a =>
              [x00] ++ bytes_le16 a ++ [byte_of_Z (reportingDataType r)]
              ++ bytes_le16 (minInterval r) ++ bytes_le16 (maxInterval r)
              ++ firstn (Z.to_nat (fst (zclDataSize (reportingDataType r) [] 0)))
                        (bytes_le64 (valueChange r)) |}.
  intros dataType payload offset. unfold zclDataSize.
  destruct ((dataType =? DATA_TYPE_OCTET_STRING) || (dataType =? DATA_TYPE_CHARACTER_STRING));
    simpl.
  - unfold at_, quint8_of_byte.
    pose proof (Byte.to_N_bounded (nth (Z.to_nat offset) payload x00)). lia.
  - split; [lia|].
    repeat match goal with |- context [if ?c then _ else _] => destruct c end; lia.
Defined.

(** A property that has not received a value yet, and the TUYA frame of
    the duration scenario: status 0, transaction 0, datapoint 0x07, data type
    0x02, length 0x0004 (big-endian), value 00 00 00 2A. *)
Definition unset : PropertyObject := mkProperty "action" 0x0012 Invalid [] Invalid Invalid.

Definition tuyaDuration : QByteArray :=
  [x00; x00; x07; x02; x00; x04; x00; x00; x00; x2a].

(** The states the scenarios start from. *)
Definition empty : State Property := mkState [] [] [] 0 false "" [].

Definition plugAddress : QByteArray := [x00; x15; x8d; x00; x01; x02; x03; x04].

Definition battery : Property :=
  mkScenarioProperty batteryVoltage (mkProperty "battery" 0x0001 Invalid [] Invalid Invalid).

Definition switch : Property :=
  mkScenarioProperty switchAction (mkProperty "action" 0x0006 Invalid [] Invalid Invalid).

(** A device that has joined and is not yet interviewed, and the same device
    once identified, with one endpoint and two properties. *)
Definition joinedDevice : DeviceObject Property :=
  mkDevice plugAddress 0x1234 "plug" "" "" 0 0 EndDevice true true false 1
           false true 0
           [(1, mkEndpoint 1 [0x0000; 0x0001; 0x0006; 0x0019] [] Unknown true false
                  [battery; switch] [])].

Definition knownDevice : DeviceObject Property :=
  setTimerActive false
    (setInterviewFinished (setModelName "plug.v1" (setManufacturerName "ACME" joinedDevice))).

Definition joined : State Property :=
  mkState [joinedDevice] [(plugAddress, 0%nat)] [] 0 false "" [].

Definition known : State Property :=
  mkState [knownDevice] [(plugAddress, 0%nat)] [] 0 false "firmware.ota" [].

(** Two data requests that the adapter took and reported done, and a third
    one enqueued after them. *)
Definition twoFinished : State Property :=
  requestFinished 1 0
    (requestFinished 0 0
       (handleRequests
          (enqueueDataRequest 0%nat 1 0x0006 [x01; x01; x01] "on"
             (enqueueDataRequest 0%nat 1 0x0006 [x01; x00; x00] "off" known)))).

Definition thirdEnqueued : State Property :=
  enqueueDataRequest 0%nat 1 0x0006 [x01; x02; x02] "toggle" twoFinished.

(** An ImageRequest of the OTA cluster for the image of [firmware], from a
    node that runs the version before it. *)
Definition imageRequest : QByteArray :=
  [x00] ++ bytes_le16 0x115F ++ bytes_le16 0x0001 ++ bytes_le32 0x00010001.

(** The report of the model name "lumi.sensor_magnet". *)
Definition lumiModel : QByteArray :=
  map byte_of_Z [108; 117; 109; 105; 46; 115; 101; 110; 115; 111; 114; 95;
                 109; 97; 103; 110; 101; 116].

End Scenario.

(** * Properties *)

(** ** Bytes and maps *)

Lemma quint8_of_byte_range (b : byte) : 0 <= quint8_of_byte b < 256.
Proof.
  unfold quint8_of_byte.
  pose proof (Byte.to_N_bounded b) as H.
  lia.
Qed.

Lemma at_range (data : QByteArray) (i : nat) : 0 <= at_ data i < 256.
Proof. apply quint8_of_byte_range. Qed.

Lemma byte_of_Z_of_byte (b : byte) : byte_of_Z (quint8_of_byte b) = b.
Proof. destruct b; reflexivity. Qed.

Lemma quint8_of_byte_of_Z (z : Z) : quint8_of_byte (byte_of_Z z) = z mod 256.
Proof.
  unfold byte_of_Z, quint8_of_byte.
  assert (Hr : 0 <= z mod 256 < 256) by (apply Z.mod_pos_bound; lia).
  destruct (Byte.of_N (Z.to_N (z mod 256))) as [b|] eqn:E.
  - apply Byte.to_of_N in E. rewrite E. lia.
  - apply Byte.of_N_None_iff in E. lia.
Qed.

Lemma byte_of_Z_inj (x y : Z) :
  0 <= x < 256 -> 0 <= y < 256 -> byte_of_Z x = byte_of_Z y -> x = y.
Proof.
  intros Hx Hy H.
  apply (f_equal quint8_of_byte) in H.
  rewrite !quint8_of_byte_of_Z in H.
  rewrite !Z.mod_small in H by lia.
  exact H.
Qed.


Section QMapFacts.
Context {K V : Type} (cmp : K -> K -> comparison).
Hypothesis cmp_refl : forall k, cmp k k = Eq.

Lemma qmap_find_insert (k : K) (v : V) (m : list (K * V)) :
  qmap_find cmp k (qmap_insert cmp k v m) = Some v.
Proof.
  induction m as [|[k' v'] rest IH]; simpl.
  - now rewrite cmp_refl.
  - destruct (cmp k k') eqn:E; simpl.
    + now rewrite cmp_refl.
    + now rewrite cmp_refl.
    + now rewrite E.
Qed.

End QMapFacts.

Lemma string_compare_refl (s : string) : String.compare s s = Eq.
Proof.
  pose proof (String.compare_antisym s s) as H.
  destruct (String.compare s s); simpl in H; congruence.
Qed.

Lemma map_value_insert (k : string) (v : QVariant) (m : list (string * QVariant)) :
  map_value k (map_insert k v m) = Some v.
Proof. apply qmap_find_insert, string_compare_refl. Qed.

Lemma setValue_same (p : PropertyObject) : setValue p (m_value p) = p.
Proof. now destruct p. Qed.

(** ** The property parsers *)

(** A parser whose guard rejects the frame returns the property as it
    was. *)
Ltac rejected :=
  match goal with
  | |- (if ?c then ?p else _) = ?p =>
      let E := fresh "E" in
      destruct c eqn:E; [reflexivity | exfalso]
  end.

(** The guard of [BatteryVoltage]: a frame that is not (0x0020, 8-bit
    unsigned, one byte) is ignored. *)
Lemma BatteryVoltage_mismatch (p : PropertyObject) (attributeId dataType : Z)
    (data : QByteArray) :
  ~ (attributeId = 0x0020 /\ dataType = DATA_TYPE_8BIT_UNSIGNED /\ List.length data = 1%nat) ->
  Properties.BatteryVoltage.parseAttribte p attributeId dataType data = p.
Proof.
  intros H. unfold Properties.BatteryVoltage.parseAttribte. rejected.
  apply H.
  apply orb_false_elim in E as [E E3]. apply orb_false_elim in E as [E1 E2].
  apply negb_false_iff in E1, E2, E3.
  unfold qlen in E3. repeat split; lia.
Qed.

(** C9: [BatteryVoltage], given attribute 0x0020 of type 8-bit unsigned with
    the single byte [raw], sets the value to raw x 100 mV mapped linearly
    from 2850...3200 mV onto 0...100 percent, clipped at both ends; the byte
    0x1D gives 14. *)
Theorem BatteryVoltage_percentage (p : PropertyObject) (raw : byte) :
  m_value (Properties.BatteryVoltage.parseAttribte p 0x0020 DATA_TYPE_8BIT_UNSIGNED [raw])
  = VInt (linearPercent 2850 3200 (quint8_of_byte raw * 100))
  /\ 0 <= linearPercent 2850 3200 (quint8_of_byte raw * 100) <= 100
  /\ m_value (Properties.BatteryVoltage.parseAttribte p 0x0020 DATA_TYPE_8BIT_UNSIGNED [x1d])
     = VInt 14.
Proof.
  split; [|split].
  - destruct raw; vm_compute; reflexivity.
  - destruct raw; vm_compute; split; discriminate.
  - vm_compute. reflexivity.
Qed.

(** C4, as stated: with data type 0x39 (single precision) the LUMI
    [CubeMovement] parser ignores the frame, and the value 130 does not
    become "flip". *)
Lemma CubeMovement_ignores_single_precision :
  m_value (PropertiesLUMI.CubeMovement.parseAttribte Scenario.unset 0x0055 0x39
             (bytes_le16 130))
  <> VString "flip".
Proof. vm_compute. discriminate. Qed.

(** C4, amended: [CubeMovement], given attribute 0x0055 with the data type
    16-bit unsigned (0x21) and a two-byte little-endian payload, sets "flip"
    for 130, "shake" for 0 and "wake" for 2; a value [v] below 32768 is mapped
    0 -> shake, 2 -> wake, 3 -> fall, >= 512 -> tap, >= 256 -> slide,
    >= 128 -> flip, >= 64 -> drop, and anything else leaves the value as it
    was. *)
Theorem CubeMovement_mapping (p : PropertyObject) :
  m_value (PropertiesLUMI.CubeMovement.parseAttribte p 0x0055 DATA_TYPE_16BIT_UNSIGNED
             (bytes_le16 130)) = VString "flip"
  /\ m_value (PropertiesLUMI.CubeMovement.parseAttribte p 0x0055 DATA_TYPE_16BIT_UNSIGNED
                (bytes_le16 0)) = VString "shake"
  /\ m_value (PropertiesLUMI.CubeMovement.parseAttribte p 0x0055 DATA_TYPE_16BIT_UNSIGNED
                (bytes_le16 2)) = VString "wake"
  /\ forall lo hi : byte,
       let v := quint8_of_byte lo + 256 * quint8_of_byte hi in
       v < 32768 ->
       m_value (PropertiesLUMI.CubeMovement.parseAttribte p 0x0055
                  DATA_TYPE_16BIT_UNSIGNED [lo; hi])
       = if v =? 0 then VString "shake"
         else if v =? 2 then VString "wake"
         else if v =? 3 then VString "fall"
         else if 512 <=? v then VString "tap"
         else if 256 <=? v then VString "slide"
         else if 128 <=? v then VString "flip"
         else if 64 <=? v then VString "drop"
         else m_value p.
Proof.
  split; [reflexivity|]. split; [reflexivity|]. split; [reflexivity|].
  intros lo hi v Hv.
  unfold PropertiesLUMI.CubeMovement.parseAttribte.
  change (negb (0x0055 =? 0x0055)
          || negb (DATA_TYPE_16BIT_UNSIGNED =? DATA_TYPE_16BIT_UNSIGNED)
          || negb (qlen [lo; hi] =? 2)) with false.
  cbv iota.
  assert (Hr : to_qint16 (le16 [lo; hi] 0) = v).
  { unfold to_qint16, le16, at_. cbn [nth Nat.add]. fold v.
    pose proof (quint8_of_byte_range lo). pose proof (quint8_of_byte_range hi).
    rewrite Z.mod_small by (subst v; lia).
    destruct (v <? 32768) eqn:E; [reflexivity | lia]. }
  rewrite Hr. cbv zeta.
  repeat match goal with
         | |- context [if ?c then _ else _] => destruct c; [reflexivity|]
         end.
  reflexivity.
Qed.

(** The witness of [CubeMovement_mapping]: the bytes 82 00 are the value
    130. *)
Lemma CubeMovement_mapping_witness :
  m_value (PropertiesLUMI.CubeMovement.parseAttribte Scenario.unset 0x0055
             DATA_TYPE_16BIT_UNSIGNED [x82; x00]) = VString "flip".
Proof.
  exact (proj2 (proj2 (proj2 (CubeMovement_mapping Scenario.unset))) x82 x00 eq_refl).
Defined.

Lemma store_insert (p : PropertyObject) (k : string) (v : QVariant)
    (m : list (string * QVariant)) :
  PropertiesTUYA.store p (map_insert k v m) = setValue p (VMap (map_insert k v m)).
Proof.
  pose proof (map_value_insert k v m) as H.
  destruct (map_insert k v m); [discriminate H | reflexivity].
Qed.

Lemma store_same (p : PropertyObject) : PropertiesTUYA.store p (toMap (m_value p)) = p.
Proof.
  destruct p as [n c v o h s]. destruct v; try reflexivity.
  destruct m; reflexivity.
Qed.

(** C5, as stated: the TUYA [PresenceSensor] has no datapoint 0x07; after
    the frame its value holds no duration. *)
Lemma PresenceSensor_has_no_duration :
  exists p,
    PropertiesTUYA.PresenceSensor.parseCommand Scenario.unset 0x01 Scenario.tuyaDuration
    = Some p
    /\ map_value "duration" (toMap (m_value p)) <> Some (VInt 42).
Proof. eexists. split; [vm_compute; reflexivity | discriminate]. Qed.

(** C5, amended: it is the TUYA [NeoSiren] property whose datapoint 0x07 is
    the duration.  On cluster command 0x01 with a header of data type 0x02,
    length 0x0004 (big-endian) and datapoint 0x07, followed by 00 00 00 2A,
    its value map afterwards holds duration = 42; [PresenceSensor], given
    the same frame, keeps its value. *)
Theorem NeoSiren_duration (p : PropertyObject) (status transactionId : byte) :
  let payload := [status; transactionId; x07; x02; x00; x04; x00; x00; x00; x2a] in
  (exists p',
     PropertiesTUYA.NeoSiren.parseCommand p 0x01 payload = Some p'
     /\ map_value "duration" (toMap (m_value p')) = Some (VInt 42))
  /\ PropertiesTUYA.PresenceSensor.parseCommand p 0x01 payload = Some p.
Proof.
  intros payload. split.
  - eexists. split.
    + unfold PropertiesTUYA.NeoSiren.parseCommand, PropertiesTUYA.Data.parseCommand.
      cbn -[map_insert PropertiesTUYA.store].
      reflexivity.
    + rewrite store_insert. cbn [m_value setValue toMap].
      change (toInt (VUInt (be32 [x00; x00; x00; x2a] 0))) with 42.
      apply map_value_insert.
  - unfold PropertiesTUYA.PresenceSensor.parseCommand, PropertiesTUYA.Data.parseCommand.
    cbn -[PropertiesTUYA.store toMap].
    now rewrite store_same.
Qed.

(** C1 fails on [KonkeButtonAction]: its guard joins the two tests with
    "and" and has no test of the length, so a frame with the right attribute
    and any data type, or with the right data type and any attribute, is
    parsed.  Here the data type is 8-bit unsigned, not boolean, and the
    value changes all the same. *)
Theorem KonkeButtonAction_parses_mismatch (p : PropertyObject) :
  (forall dataType : Z,
     m_value (PropertiesOther.KonkeButtonAction.parseAttribte p 0x0000 dataType [x80])
     = VString "singleClick")
  /\ (forall attributeId : Z,
        m_value (PropertiesOther.KonkeButtonAction.parseAttribte p attributeId
                   DATA_TYPE_BOOLEAN [x80])
        = VString "singleClick")
  /\ m_value (PropertiesOther.KonkeButtonAction.parseAttribte Scenario.unset 0x0000
                DATA_TYPE_8BIT_UNSIGNED [x80])
     <> m_value Scenario.unset.
Proof.
  split; [|split].
  - intros dataType. reflexivity.
  - intros attributeId. unfold PropertiesOther.KonkeButtonAction.parseAttribte.
    rewrite Z.eqb_refl, andb_false_r. reflexivity.
  - discriminate.
Qed.

(** ** The engine: the store and the effects of the primitive steps *)

Section StoreFacts.
Import Device.
Import ZigBee.
Context {P : Type} {zcl : ZclNames} {env : Environment P}.

Lemma replace_length {A : Type} (n : nat) (x : A) (l : list A) :
  List.length (replace n x l) = List.length l.
Proof.
  revert n. induction l as [|y l IH]; intros [|n]; simpl; auto.
Qed.

Lemma nth_replace {A : Type} (n m : nat) (x d : A) (l : list A) :
  nth m (replace n x l) d
  = if (Nat.eqb m n && Nat.ltb n (List.length l))%bool then x else nth m l d.
Proof.
  revert n m. induction l as [|y l IH]; intros n m.
  - destruct n, m; simpl; rewrite ?andb_false_r; reflexivity.
  - destruct n as [|n], m as [|m]; simpl; try reflexivity.
    rewrite IH. reflexivity.
Qed.

Lemma device_modifyDevice (h g : Device) (f : DeviceObject P -> DeviceObject P)
    (st : State P) :
  device (modifyDevice h f st) g
  = if (Nat.eqb g h && Nat.ltb h (List.length (store st)))%bool
    then f (device st h) else device st g.
Proof. unfold device, modifyDevice. simpl. apply nth_replace. Qed.

Lemma store_modifyDevice_length (h : Device) (f : DeviceObject P -> DeviceObject P)
    (st : State P) :
  List.length (store (modifyDevice h f st)) = List.length (store st).
Proof. unfold modifyDevice. simpl. apply replace_length. Qed.

Lemma store_enqueue (r : RequestObject) (st : State P) : store (enqueue r st) = store st.
Proof. reflexivity. Qed.

Lemma store_call (c : AdapterCall) (st : State P) : store (snd (call c st)) = store st.
Proof. reflexivity. Qed.

Lemma store_configureReporting (h : Device) (e : Z) (r : ReportingObject) (st : State P) :
  store (configureReporting h e r st) = store st.
Proof. reflexivity. Qed.

Lemma store_configureReportings (h : Device) (e : Z) (rs : list ReportingObject)
    (st : State P) :
  store (fold_left (fun st r => configureReporting h e r st) rs st) = store st.
Proof.
  revert st. induction rs as [|r rs IH]; intros st; simpl; [reflexivity|].
  rewrite IH. apply store_configureReporting.
Qed.

Lemma store_configureEndpoints (h : Device) (eps : list (Z * EndpointObject P))
    (st : State P) :
  store (fold_left
           (fun st (ke : Z * EndpointObject P) =>
              fold_left (fun st r => configureReporting h (id (snd ke)) r st)
                        (reportings (snd ke)) st)
           eps st) = store st.
Proof.
  revert st. induction eps as [|ke eps IH]; intros st; simpl; [reflexivity|].
  rewrite IH. apply store_configureReportings.
Qed.

Lemma device_interviewFinished (h g : Device) (st : State P) :
  device (ZigBee.interviewFinished h st) g
  = if (Nat.eqb g h && Nat.ltb h (List.length (store st)))%bool
    then interviewed (device st h) else device st g.
Proof.
  unfold ZigBee.interviewFinished.
  set (st1 := modifyDevice h setupDevice st).
  set (st2 := fold_left _ _ st1).
  assert (H2 : store st2 = store st1) by apply store_configureEndpoints.
  assert (D2 : forall k, device st2 k = device st1 k)
    by (intros k; unfold device; now rewrite H2).
  change (device (emit storeDatabase ?s) g) with (device s g).
  rewrite !device_modifyDevice.
  rewrite !store_modifyDevice_length.
  change (store (emit ?e st2)) with (store st2).
  change (device (emit ?e st2) ?k) with (device st2 k).
  rewrite H2, !D2. unfold st1.
  rewrite store_modifyDevice_length, !device_modifyDevice.
  destruct (Nat.eqb g h) eqn:Eg; simpl.
  - destruct (Nat.ltb h (List.length (store st))) eqn:El; simpl.
    + rewrite Nat.eqb_refl. simpl. reflexivity.
    + apply Nat.eqb_eq in Eg. now subst.
  - reflexivity.
Qed.


End StoreFacts.

(** ** What a step leaves of every device

    The steps of the interview and of the attribute dispatch are followed
    once, for any relation [R] between a device before and after that the
    bookkeeping setters respect; it is then read for the flag
    [interviewFinished] and for the properties of the endpoints. *)

Section Keeps.
Import Device.
Import ZigBee.
Context {P : Type} {pc : PropertyClass P} {zcl : ZclNames} {env : Environment P}.

Variable R : DeviceObject P -> DeviceObject P -> Prop.
Hypothesis R_refl : forall d, R d d.
Hypothesis R_trans : forall a b c, R a b -> R b c -> R a c.
Hypothesis R_timer : forall b d, R d (setTimerActive b d).
Hypothesis R_interviewEndpoint : forall e d, R d (setInterviewEndpointId e d).
Hypothesis R_version : forall v d, R d (setVersion v d).
Hypothesis R_powerSource : forall v d, R d (setPowerSource v d).
Hypothesis R_manufacturerName : forall s d, R d (setManufacturerName s d).
Hypothesis R_modelName : forall s d, R d (setModelName s d).
Hypothesis R_zoneStatus : forall e z d, R d (modifyEndpoint e (setZoneStatus z) d).

Definition keeps (st st' : State P) : Prop :=
  forall g, R (device st g) (device st' g).

Lemma keeps_refl (st : State P) : keeps st st.
Proof. intros g. apply R_refl. Qed.

Lemma keeps_trans (a b c : State P) : keeps a b -> keeps b c -> keeps a c.
Proof. intros H1 H2 g. eapply R_trans; [apply H1 | apply H2]. Qed.

Lemma keeps_store (st st' : State P) : store st' = store st -> keeps st st'.
Proof. intros H g. unfold device. rewrite H. apply R_refl. Qed.

Lemma keeps_modifyDevice (h : Device) (f : DeviceObject P -> DeviceObject P)
    (st : State P) :
  (forall d, R d (f d)) -> keeps st (modifyDevice h f st).
Proof.
  intros Hf g. rewrite device_modifyDevice.
  destruct (Nat.eqb g h) eqn:E; simpl; [|apply R_refl].
  destruct (Nat.ltb h (List.length (store st))); [|apply R_refl].
  apply Nat.eqb_eq in E. subst. apply Hf.
Qed.

Lemma keeps_interviewError (h : Device) (reason : string) (st : State P) :
  keeps st (interviewError h reason st).
Proof.
  unfold interviewError. destruct (negb (timerActive (device st h))).
  - apply keeps_refl.
  - eapply keeps_trans; [|apply keeps_modifyDevice, R_timer].
    apply keeps_store. reflexivity.
Qed.

Lemma keeps_interviewDevice (h : Device) (st : State P) :
  keeps st (interviewDevice h st).
Proof.
  unfold interviewDevice. destruct (Device.interviewFinished (device st h)).
  - apply keeps_refl.
  - eapply keeps_trans; [|apply keeps_modifyDevice, R_timer].
    apply keeps_store. reflexivity.
Qed.

(** A call on the adapter followed by the error path. *)
Lemma keeps_called (c : AdapterCall) (h : Device) (reason : string) (st : State P) :
  keeps st (snd (let (ok, st') := call c st in
                 if ok then (true, st') else (false, interviewError h reason st'))).
Proof.
  unfold call. destruct (adapter (effects st) c); simpl.
  - apply keeps_store. reflexivity.
  - eapply keeps_trans; [|apply keeps_interviewError].
    apply keeps_store. reflexivity.
Qed.

Lemma interviewZones_cases (id : Z) (h : Device) (eps : list (Z * EndpointObject P))
    (st : State P) :
  keeps st (snd (interviewZones id h eps st))
  \/ snd (interviewZones id h eps st) = ZigBee.interviewFinished h st.
Proof.
  induction eps as [|[key e] eps IH]; simpl.
  - now right.
  - destruct (negb (existsb (Z.eqb CLUSTER_IAS_ZONE) (inClusters e))); [exact IH|].
    destruct (zoneStatus e); try exact IH; left.
    + apply keeps_called.
    + apply keeps_called.
    + unfold call.
      destruct (adapter (effects st) _); simpl.
      * destruct (adapter _ _); simpl.
        -- apply keeps_store. reflexivity.
        -- eapply keeps_trans; [|apply keeps_interviewError].
           apply keeps_store. reflexivity.
      * eapply keeps_trans; [|apply keeps_interviewError].
        apply keeps_store. reflexivity.
Qed.

Lemma interviewRequest_cases (id : Z) (h : Device) (st : State P) :
  keeps st (snd (interviewRequest id h st))
  \/ (identified (device st h)
      /\ snd (interviewRequest id h st) = ZigBee.interviewFinished h st).
Proof.
  unfold interviewRequest.
  destruct ((manufacturerName (device st h) =? "")%string
            || (modelName (device st h) =? "")%string) eqn:En.
  - left.
    destruct (negb (nodeDescriptorReceived (device st h))); [apply keeps_called|].
    destruct (negb (endpointsReceived (device st h))); [apply keeps_called|].
    destruct (find _ (endpoints (device st h))) as [[key e]|].
    + set (st1 := modifyDevice h _ st).
      apply keeps_trans with st1.
      * apply keeps_modifyDevice, R_interviewEndpoint.
      * apply keeps_called.
    + destruct (find _ (endpoints (device st h))) as [[key e]|].
      * apply keeps_called.
      * apply keeps_interviewError.
  - apply orb_false_elim in En as [E1 E2].
    apply String.eqb_neq in E1, E2.
    destruct (interviewZones_cases id h (endpoints (device st h)) st) as [H|H].
    + now left.
    + right. split; [split; assumption | exact H].
Qed.

(** The Basic cluster's [switch]: it goes on, or returns, with every device
    kept; or it returns through [interviewFinished], from a state in which
    the device is identified. *)
Lemma parseBasic_cases (h : Device) (attributeId dataType : Z) (data : QByteArray)
    (st : State P) :
  (exists st', parseBasic h attributeId dataType data st = Continue st' /\ keeps st st')
  \/ (exists st', parseBasic h attributeId dataType data st = Return st' /\ keeps st st')
  \/ (exists st1,
        parseBasic h attributeId dataType data st = Return (ZigBee.interviewFinished h st1)
        /\ keeps st st1
        /\ Nat.ltb h (List.length (store st1)) = true
        /\ identified (device st1 h)).
Proof.
  unfold parseBasic.
  destruct (attributeId =? 1).
  { destruct (negb _); [right; left | left]; eexists; split; try reflexivity;
      auto using keeps_refl, keeps_modifyDevice. }
  destruct (attributeId =? 4).
  { destruct (negb _); [right; left | left]; eexists; split; try reflexivity;
      auto using keeps_refl, keeps_modifyDevice. }
  destruct (attributeId =? 5).
  { destruct (negb _); [right; left; eexists; split; [reflexivity | apply keeps_refl] |].
    set (st1 := modifyDevice h (setModelName (trimmed data)) st).
    assert (K1 : keeps st st1) by (apply keeps_modifyDevice, R_modelName).
    destruct ((manufacturerName (device st1 h) =? "")%string
              && String.prefix "lumi.sensor" (modelName (device st1 h)))%bool eqn:Eq.
    - right; right.
      set (st2 := modifyDevice h (setPowerSource POWER_SOURCE_BATTERY) st1).
      set (st3 := modifyDevice h (setManufacturerName "LUMI") st2).
      apply andb_prop in Eq as [_ Ep].
      assert (Hl : Nat.ltb h (List.length (store st)) = true).
      { unfold st1 in Ep. rewrite device_modifyDevice, Nat.eqb_refl in Ep. simpl in Ep.
        destruct (Nat.ltb h (List.length (store st))) eqn:El; [reflexivity|].
        unfold device in Ep. rewrite nth_overflow in Ep by (apply Nat.ltb_ge, El).
        discriminate Ep. }
      exists st3. split; [reflexivity|]. split; [|split].
      + apply keeps_trans with st2.
        * apply keeps_trans with st1; [exact K1|].
          apply keeps_modifyDevice, R_powerSource.
        * apply keeps_modifyDevice, R_manufacturerName.
      + unfold st3, st2, st1. now rewrite !store_modifyDevice_length.
      + unfold st3, st2. rewrite !device_modifyDevice, !store_modifyDevice_length.
        unfold st1 in *. rewrite store_modifyDevice_length.
        rewrite device_modifyDevice in Ep. rewrite device_modifyDevice.
        rewrite Nat.eqb_refl, Hl in *. simpl in *.
        split; [discriminate|].
        change (trimmed data <> "").
        intros Hm. rewrite Hm in Ep. discriminate Ep.
    - left. exists st1. split; [reflexivity | exact K1]. }
  destruct (attributeId =? 7).
  { destruct (_ && _)%bool; [right; left | left]; eexists; split; try reflexivity;
      auto using keeps_refl, keeps_modifyDevice. }
  left. eexists. split; [reflexivity | apply keeps_refl].
Qed.

Lemma keeps_namesReceived (h : Device) (attributeId : Z) (st : State P) :
  keeps st (namesReceived h attributeId st).
Proof.
  unfold namesReceived.
  destruct (_ && _ && _ && _)%bool; [|apply keeps_refl].
  eapply keeps_trans; [|apply keeps_interviewDevice].
  destruct (_ && _)%bool; [|apply keeps_refl].
  eapply keeps_trans; [|apply keeps_modifyDevice, R_manufacturerName].
  destruct (contains tuyaPromoted _); [|apply keeps_refl].
  apply keeps_modifyDevice, R_modelName.
Qed.

(** [parseAttribute]: every device is kept, or the interview is finished
    from a state in which the device is identified, or the interview was
    finished before and the attribute is handed to the endpoint's
    properties. *)
Lemma parseAttribute_cases {ps : Parsers P} (h : Device) (endpointId : Z)
    (cluster attributeId dataType : Z) (data : QByteArray) (st : State P) :
  keeps st (parseAttribute h endpointId cluster attributeId dataType data st)
  \/ (exists st1,
        parseAttribute h endpointId cluster attributeId dataType data st
        = ZigBee.interviewFinished h st1
        /\ cluster = CLUSTER_BASIC
        /\ keeps st st1
        /\ Nat.ltb h (List.length (store st1)) = true
        /\ identified (device st1 h))
  \/ (Device.interviewFinished (device st h) = true
      /\ parseAttribute h endpointId cluster attributeId dataType data st
         = modifyDevice h
             (modifyEndpoint endpointId
                (forward (fun p => parseAttribte p attributeId dataType data) cluster))
             st).
Proof.
  unfold parseAttribute.
  destruct (cluster =? CLUSTER_BASIC) eqn:Ec.
  { apply Z.eqb_eq in Ec.
    destruct (parseBasic_cases h attributeId dataType data st)
      as [(st' & -> & K) | [(st' & -> & K) | (st1 & -> & K)]].
    - left. eapply keeps_trans; [exact K | apply keeps_namesReceived].
    - now left.
    - right. left. now exists st1. }
  destruct (_ && _)%bool.
  { left. destruct (attributeId =? 0).
    - destruct (negb _); [apply keeps_refl|].
      apply keeps_modifyDevice, R_zoneStatus.
    - destruct (negb _); [apply keeps_refl|].
      eapply keeps_trans; [|apply keeps_interviewDevice].
      destruct (le64 data 0 =? _); [apply keeps_refl|].
      apply keeps_modifyDevice, R_zoneStatus. }
  destruct (Device.interviewFinished (device st h)) eqn:E; simpl.
  - right. right. split; reflexivity.
  - left. apply keeps_refl.
Qed.

End Keeps.

Section Flags.
Import Device.
Import ZigBee.
Context {P : Type} {pc : PropertyClass P} {zcl : ZclNames} {env : Environment P}.

(** The two readings of [keeps]. *)
Definition sameFlag (d d' : DeviceObject P) : Prop :=
  Device.interviewFinished d' = Device.interviewFinished d.

Definition sameProperties (d d' : DeviceObject P) : Prop :=
  forall e, properties (endpoint d' e) = properties (endpoint d e).

Lemma identified_interviewed (d : DeviceObject P) :
  identified d -> identified (interviewed d).
Proof. intros H. exact H. Qed.

(** The device whose flag a step has set: it is the one the step finished
    the interview of. *)
Lemma flag_set_by_interviewFinished (h g : Device) (st : State P) :
  Device.interviewFinished (device st g) = false ->
  Device.interviewFinished (device (ZigBee.interviewFinished h st) g) = true ->
  device (ZigBee.interviewFinished h st) g = interviewed (device st h).
Proof.
  intros H0 H1. rewrite device_interviewFinished in *.
  destruct (Nat.eqb g h && Nat.ltb h (List.length (store st)))%bool; [reflexivity|].
  congruence.
Qed.

Lemma In_qmap_insert {K V : Type} (cmp : K -> K -> comparison) (k : K) (v : V)
    (m : list (K * V)) :
  In (k, v) (qmap_insert cmp k v m).
Proof.
  induction m as [|[k' v'] m IH]; simpl; [now left|].
  destruct (cmp k k'); simpl; auto.
Qed.

Lemma coordinatorReady_device (st : State P) :
  let st' := coordinatorReady st in
  let c := List.length (store st) in
  In (bytes_be64 adapterIeeeAddress, c) (m_devices st')
  /\ device st' c
     = setInterviewFinished
         (setLogicalType Coordinator
            (newDevice (bytes_be64 adapterIeeeAddress) 0 "HOMEd Coordinator")).
Proof.
  intros st' c. unfold st', coordinatorReady. fold c.
  set (d := newDevice (bytes_be64 adapterIeeeAddress) 0 "HOMEd Coordinator").
  set (st1 := setStore (store st ++ [d]) st).
  set (st2 := setDevices _ st1).
  set (st3 := modifyDevice c (setLogicalType Coordinator) st2).
  set (st4 := modifyDevice c setInterviewFinished st3).
  set (st5 := setDevices _ st4).
  assert (Hd : device st4 c = setInterviewFinished (setLogicalType Coordinator d)).
  { unfold st4, st3. rewrite !device_modifyDevice, store_modifyDevice_length.
    change (store st2) with (store st ++ [d]).
    rewrite Nat.eqb_refl, length_app. simpl.
    replace (Nat.ltb c (List.length (store st) + 1)) with true
      by (symmetry; apply Nat.ltb_lt; unfold c; lia).
    simpl. f_equal. f_equal. unfold device.
    change (store st2) with (store st ++ [d]).
    unfold c. rewrite app_nth2, Nat.sub_diag by lia. reflexivity. }
  assert (Hi : In (bytes_be64 adapterIeeeAddress, c) (m_devices st5))
    by apply In_qmap_insert.
  destruct (m_requests st5); (split; [exact Hi | exact Hd]).
Qed.

(** C3, amended: the interview state machine ([interviewRequest], through
    [interviewFinished]) and the LUMI join quirk of [parseAttribute] set the
    flag [interviewFinished] only on a device whose manufacturer name and
    model name are both non-empty at that moment.  The implication is not
    kept in every state that follows: the coordinator entry that
    [coordinatorReady] creates carries the flag with both names empty, and a
    Basic cluster report of attribute 0x0004 gives a device whose interview
    is finished the reported string as its manufacturer name, also when the
    string is empty, and leaves the flag set. *)
Theorem flag_set_on_identified {ps : Parsers P} (st : State P) (h g : Device) :
  (forall id : Z,
     Device.interviewFinished (device st g) = false ->
     Device.interviewFinished (device (snd (interviewRequest id h st)) g) = true ->
     identified (device (snd (interviewRequest id h st)) g))
  /\ (forall (endpointId cluster attributeId dataType : Z) (data : QByteArray),
        let st' := parseAttribute h endpointId cluster attributeId dataType data st in
        Device.interviewFinished (device st g) = false ->
        Device.interviewFinished (device st' g) = true ->
        identified (device st' g))
  /\ (let st' := coordinatorReady st in
      let c := List.length (store st) in
      In (bytes_be64 adapterIeeeAddress, c) (m_devices st')
      /\ Device.interviewFinished (device st' c) = true
      /\ logicalType (device st' c) = Coordinator
      /\ manufacturerName (device st' c) = ""
      /\ modelName (device st' c) = "")
  /\ (forall (endpointId : Z) (data : QByteArray),
        let st' := parseAttribute h endpointId CLUSTER_BASIC 0x0004
                     DATA_TYPE_CHARACTER_STRING data st in
        (h < List.length (store st))%nat ->
        Device.interviewFinished (device st h) = true ->
        device st' h = setManufacturerName (trimmed data) (device st h)
        /\ Device.interviewFinished (device st' h) = true
        /\ manufacturerName (device st' h) = trimmed data).
Proof.
  split; [|split; [|split]].
  - intros id H0 H1.
    destruct (interviewRequest_cases sameFlag) with (id := id) (h := h) (st := st)
      as [K | [Hid Heq]]; try (intros; reflexivity).
    + intros a b c Hab Hbc. unfold sameFlag in *. congruence.
    + rewrite (K g) in H1. congruence.
    + rewrite Heq in *.
      rewrite (flag_set_by_interviewFinished h g st H0 H1).
      apply identified_interviewed, Hid.
  - intros endpointId cluster attributeId dataType data st' H0 H1.
    destruct (parseAttribute_cases sameFlag) with (h := h) (endpointId := endpointId)
      (cluster := cluster) (attributeId := attributeId) (dataType := dataType)
      (data := data) (st := st) (ps := ps)
      as [K | [(st1 & Heq & _ & K & Hl & Hid) | [Hf Heq]]]; try (intros; reflexivity).
    + intros a b c Hab Hbc. unfold sameFlag in *. congruence.
    + unfold st' in H1. rewrite (K g) in H1. congruence.
    + unfold st' in *. rewrite Heq in *.
      assert (H0' : Device.interviewFinished (device st1 g) = false)
        by (rewrite (K g); exact H0).
      rewrite (flag_set_by_interviewFinished h g st1 H0' H1).
      apply identified_interviewed, Hid.
    + unfold st' in H1. rewrite Heq, device_modifyDevice in H1.
      destruct (Nat.eqb g h && _)%bool eqn:E; [|congruence].
      apply andb_prop in E as [E _]. apply Nat.eqb_eq in E. subst g. congruence.
  - intros st' c.
    destruct (coordinatorReady_device st) as [Hi Hd].
    fold st' c in Hi, Hd. rewrite Hd. auto.
  - intros endpointId data st' Hl Hf.
    assert (E : st' = modifyDevice h (setManufacturerName (trimmed data)) st).
    { unfold st', parseAttribute, parseBasic, namesReceived.
      change (CLUSTER_BASIC =? CLUSTER_BASIC) with true.
      change (0x0004 =? 0x0001) with false. change (0x0004 =? 0x0004) with true.
      change (negb (DATA_TYPE_CHARACTER_STRING =? DATA_TYPE_CHARACTER_STRING))
        with false.
      cbv iota.
      rewrite device_modifyDevice, Nat.eqb_refl.
      apply Nat.ltb_lt in Hl. rewrite Hl. cbn [andb].
      change (Device.interviewFinished (setManufacturerName (trimmed data) (device st h)))
        with (Device.interviewFinished (device st h)).
      rewrite Hf. reflexivity. }
    rewrite E, device_modifyDevice, Nat.eqb_refl.
    apply Nat.ltb_lt in Hl. rewrite Hl. cbn [andb].
    split; [reflexivity | split; [exact Hf | reflexivity]].
Qed.

End Flags.

Section Coordinator.
Import Scenario.

(** C3, as stated: it is not an invariant of the states the engine
    reaches.  After the adapter's start the catalogue holds the coordinator,
    whose interview counts as finished and whose manufacturer and model
    names are empty.  And in a state where every finished device is
    identified, the identified end device reports attribute 0x0004 of the
    Basic cluster as an empty character string: its manufacturer name is
    empty afterwards and its interview is still finished. *)
Lemma finished_device_is_not_always_identified :
  ~ ZigBee.finishedAreIdentified (ZigBee.coordinatorReady Scenario.empty)
  /\ ZigBee.finishedAreIdentified Scenario.known
  /\ exists st' : ZigBee.State Scenario.Property,
       ZigBee.messageReveived 0x1234 1 CLUSTER_BASIC 200
         [x18; x01; x0a; x04; x00; x42; x00] Scenario.known = Some st'
       /\ In (Scenario.plugAddress, 0%nat) (ZigBee.m_devices st')
       /\ Device.interviewFinished (ZigBee.device st' 0%nat) = true
       /\ Device.logicalType (ZigBee.device st' 0%nat) = EndDevice
       /\ Device.manufacturerName (ZigBee.device st' 0%nat) = ""
       /\ ~ ZigBee.finishedAreIdentified st'.
Proof.
  split; [|split].
  - intros H.
    destruct (H (bytes_be64 Scenario.coordinatorAddress) 0%nat) as [Hm _].
    + vm_compute. left. reflexivity.
    + reflexivity.
    + apply Hm. reflexivity.
  - intros ieee h [Hi | []] _. injection Hi as <- <-.
    split; discriminate.
  - eexists. split; [vm_compute; reflexivity|].
    split; [left; reflexivity|].
    split; [reflexivity|]. split; [reflexivity|]. split; [reflexivity|].
    intros H.
    destruct (H Scenario.plugAddress 0%nat) as [Hm _].
    + left. reflexivity.
    + reflexivity.
    + apply Hm. reflexivity.
Qed.

(** The witness of [flag_set_on_identified]: the report of a model name
    that starts with "lumi.sensor" finishes the interview of a device that
    has just joined. *)
Lemma flag_set_on_identified_witness :
  ZigBee.identified
    (ZigBee.device
       (ZigBee.parseAttribute 0%nat 1 CLUSTER_BASIC 0x0005 DATA_TYPE_CHARACTER_STRING
          Scenario.lumiModel Scenario.joined) 0%nat).
Proof.
  apply (proj1 (proj2 (flag_set_on_identified Scenario.joined 0%nat 0%nat))
           1 CLUSTER_BASIC 0x0005 DATA_TYPE_CHARACTER_STRING Scenario.lumiModel);
    reflexivity.
Defined.

End Coordinator.

(** ** Frames of a device whose interview is not finished *)

Section Unfinished.
Import Device.
Import ZigBee.
Context {P : Type} {pc : PropertyClass P} {zcl : ZclNames} {env : Environment P}.

Lemma qmap_find_insert_other {V : Type} (k k' : Z) (v : V) (m : list (Z * V)) :
  k' <> k ->
  qmap_find Z.compare k' (qmap_insert Z.compare k v m) = qmap_find Z.compare k' m.
Proof.
  intros Hk.
  assert (Hc : Z.compare k' k <> Eq) by (intros H; apply Z.compare_eq in H; contradiction).
  induction m as [|[k1 v1] m IH]; simpl.
  - destruct (Z.compare k' k); [contradiction | reflexivity | reflexivity].
  - destruct (Z.compare k k1) eqn:E; simpl.
    + apply Z.compare_eq in E. subst k1.
      destruct (Z.compare k' k); [contradiction | reflexivity | reflexivity].
    + destruct (Z.compare k' k); [contradiction | reflexivity | reflexivity].
    + destruct (Z.compare k' k1); [reflexivity | exact IH | exact IH].
Qed.

Lemma endpoint_modifyEndpoint (e e' : Z) (f : EndpointObject P -> EndpointObject P)
    (d : DeviceObject P) :
  endpoint (modifyEndpoint e f d) e' = if e' =? e then f (endpoint d e) else endpoint d e'.
Proof.
  unfold endpoint at 1, modifyEndpoint. simpl.
  destruct (e' =? e) eqn:E.
  - apply Z.eqb_eq in E. subst e'.
    now rewrite (qmap_find_insert Z.compare Z.compare_refl).
  - apply Z.eqb_neq in E. now rewrite qmap_find_insert_other.
Qed.

Lemma sameProperties_zoneStatus (e : Z) (z : ZoneStatus) (d : DeviceObject P) :
  sameProperties d (modifyEndpoint e (setZoneStatus z) d).
Proof.
  intros e'. rewrite endpoint_modifyEndpoint.
  destruct (e' =? e) eqn:E; [|reflexivity].
  apply Z.eqb_eq in E. now subst.
Qed.

(** What the Basic cluster and the two IAS Zone attributes do does not
    depend on the property parsers. *)
Lemma parseAttribute_interview (ps ps' : Parsers P) (h : Device)
    (endpointId cluster attributeId dataType : Z) (data : QByteArray) (st : State P) :
  cluster = CLUSTER_BASIC \/ Device.interviewFinished (device st h) = false ->
  parseAttribute (ps := ps) h endpointId cluster attributeId dataType data st
  = parseAttribute (ps := ps') h endpointId cluster attributeId dataType data st.
Proof.
  intros H. unfold parseAttribute.
  destruct (cluster =? CLUSTER_BASIC) eqn:Ec; [reflexivity|].
  destruct H as [H | H]; [apply Z.eqb_neq in Ec; contradiction|].
  rewrite H. reflexivity.
Qed.

Lemma reportAttributes_interview (ps ps' : Parsers P) (fuel : nat) (h : Device)
    (endpointId cluster commandId : Z) (payload : QByteArray) (st : State P) :
  cluster = CLUSTER_BASIC \/ Device.interviewFinished (device st h) = false ->
  reportAttributes (ps := ps) fuel h endpointId cluster commandId payload st
  = reportAttributes (ps := ps') fuel h endpointId cluster commandId payload st.
Proof.
  revert payload st. induction fuel as [|fuel IH]; intros payload st H; simpl.
  - reflexivity.
  - destruct (2 <? qlen payload); [|reflexivity].
    destruct (_ && _)%bool; [now apply IH|].
    destruct (_ && _ && _)%bool; [reflexivity|].
    rewrite (parseAttribute_interview ps ps') by exact H.
    apply IH.
    destruct H as [H | H]; [now left|].
    destruct (parseAttribute_cases sameFlag) with (h := h) (endpointId := endpointId)
      (cluster := cluster) (attributeId := le16 payload 0)
      (dataType := if commandId =? CMD_READ_ATTRIBUTES_RESPONSE
                   then at_ payload 3 else at_ payload 2)
      (data := mid_len payload
                 (Z.to_nat (snd (zclDataSize
                    (if commandId =? CMD_READ_ATTRIBUTES_RESPONSE
                     then at_ payload 3 else at_ payload 2) payload
                    (if commandId =? CMD_READ_ATTRIBUTES_RESPONSE then 4 else 3))))
                 (Z.to_nat (fst (zclDataSize
                    (if commandId =? CMD_READ_ATTRIBUTES_RESPONSE
                     then at_ payload 3 else at_ payload 2) payload
                    (if commandId =? CMD_READ_ATTRIBUTES_RESPONSE then 4 else 3)))))
      (st := st) (ps := ps')
      as [K | [(st1 & _ & Hc & _) | [Hf _]]]; try (intros; reflexivity).
    + intros a b c Hab Hbc. unfold sameFlag in *. congruence.
    + right. rewrite (K h). exact H.
    + now left.
    + congruence.
Qed.

(** C10: while the interview of a device is not finished, a frame changes
    no property of it.  [clusterCommandReceived] returns at once, leaving
    the whole state as it was (the Groups and OTA branches included);
    [parseAttribute] does the same whatever the property parsers are, so it
    hands them nothing, and as long as the interview stays unfinished the
    properties of every endpoint are what they were; and a whole frame from
    the device is handled the same whatever the parsers are. *)
Theorem unfinished_device_is_not_parsed (ps ps' : Parsers P) (st : State P) (h : Device) :
  Device.interviewFinished (device st h) = false ->
  (forall (endpointId cluster transactionId commandId : Z) (payload : QByteArray),
     clusterCommandReceived (ps := ps) h endpointId cluster transactionId commandId
       payload st = st)
  /\ (forall (endpointId cluster attributeId dataType : Z) (data : QByteArray),
        let st' :=
          parseAttribute (ps := ps) h endpointId cluster attributeId dataType data st in
        st' = parseAttribute (ps := ps') h endpointId cluster attributeId dataType data st
        /\ (Device.interviewFinished (device st' h) = false ->
            forall (g : Device) (e : Z),
              properties (endpoint (device st' g) e)
              = properties (endpoint (device st g) e)))
  /\ (forall (networkAddress endpointId cluster linkQuality : Z) (data : QByteArray),
        byNetwork networkAddress st = Some h ->
        messageReveived (ps := ps) networkAddress endpointId cluster linkQuality data st
        = messageReveived (ps := ps') networkAddress endpointId cluster linkQuality data st).
Proof.
  intros H. split; [|split].
  - intros. unfold clusterCommandReceived. now rewrite H.
  - intros endpointId cluster attributeId dataType data st'. split.
    + apply parseAttribute_interview. now right.
    + intros H' g e.
      destruct (parseAttribute_cases sameProperties) with (h := h)
        (endpointId := endpointId) (cluster := cluster) (attributeId := attributeId)
        (dataType := dataType) (data := data) (st := st) (ps := ps)
        as [K | [(st1 & Heq & _ & _ & Hl & _) | [Hf _]]];
        try (intros; intros ?; reflexivity).
      * intros a b c Hab Hbc e0. now rewrite Hbc, Hab.
      * apply sameProperties_zoneStatus.
      * apply (K g e).
      * unfold st' in H'. rewrite Heq, device_interviewFinished in H'.
        rewrite Nat.eqb_refl, Hl in H'. discriminate H'.
      * congruence.
  - intros networkAddress endpointId cluster linkQuality data Hn.
    unfold messageReveived. rewrite Hn.
    destruct (removed (device st h)); [reflexivity|].
    set (st0 := modifyDevice h (modifyEndpoint endpointId (fun e => e)) st).
    assert (H0 : Device.interviewFinished (device st0 h) = false).
    { unfold st0. rewrite device_modifyDevice.
      destruct (_ && _)%bool; exact H. }
    destruct (negb (Z.land (at_ data 0) FC_CLUSTER_SPECIFIC =? 0)).
    + unfold clusterCommandReceived. rewrite H0. reflexivity.
    + unfold globalCommandReceived.
      destruct (_ || _)%bool; [reflexivity|].
      destruct (_ =? CMD_READ_ATTRIBUTES); [reflexivity|].
      destruct (_ || _)%bool; [|reflexivity].
      rewrite (reportAttributes_interview ps ps') by (now right).
      reflexivity.
Qed.

End Unfinished.

Section UnfinishedScenario.
Import Scenario.

(** The witness of [unfinished_device_is_not_parsed]: the device that has
    just joined, with the scenario's parsers and with parsers that ignore
    every frame. *)
Lemma unfinished_device_is_not_parsed_witness :
  ZigBee.clusterCommandReceived 0%nat 1 0x0006 0x09 0x02 [] Scenario.joined
  = Scenario.joined.
Proof.
  apply (proj1 (unfinished_device_is_not_parsed Scenario.parsers Scenario.idle
                  Scenario.joined 0%nat eq_refl)).
Defined.

End UnfinishedScenario.

(** ** The OTA responder *)

Section ImageRequest.
Import Device.
Import ZigBee.
Context {P : Type} {pc : PropertyClass P} {ps : Parsers P}.
Context {zcl : ZclNames} {env : Environment P}.

Lemma otaHeader_bytes (transactionId commandId : Z) :
  zclHeader otaFrameControl transactionId commandId 0
  = [x19; byte_of_Z transactionId; byte_of_Z commandId].
Proof. reflexivity. Qed.

(** C7, amended: on an OTA ImageRequest (cluster 0x0019, command 0x01) from
    a device whose interview is finished, the responder answers with
    command 0x02, in a frame that is cluster-specific, server-to-client and
    with the default response disabled (frame control 0x19), echoing the
    transaction id.  The answer carries the status NO_IMAGE_AVAILABLE alone
    when the image file cannot be opened, when the request's manufacturer
    code or image type differs from the file header's, or when its file
    version equals the header's; otherwise it carries status 0 and the
    header's manufacturer code, image type, file version and image size. *)
Theorem ImageRequest_reply (st : State P) (h : Device)
    (endpointId transactionId : Z) (payload : QByteArray) :
  Device.interviewFinished (device st h) = true ->
  let request := otaNextImageRequest payload in
  let st' :=
    clusterCommandReceived h endpointId CLUSTER_OTA_UPGRADE transactionId 0x01 payload st in
  let reply (body : QByteArray) :=
    enqueueDataRequest h (id (endpoint (device st h) endpointId)) CLUSTER_OTA_UPGRADE
      ([x19; byte_of_Z transactionId; x02] ++ body) "" st in
  match file (m_otaUpgradeFile st) with
  | None => st' = reply [byte_of_Z STATUS_NO_IMAGE_AVAILABLE]
  | Some content =>
      let header := otaFileHeader content in
      (requestManufacturerCode request <> headerManufacturerCode header
       \/ requestImageType request <> headerImageType header
       \/ requestFileVersion request = headerFileVersion header ->
       st' = reply [byte_of_Z STATUS_NO_IMAGE_AVAILABLE])
      /\ (requestManufacturerCode request = headerManufacturerCode header ->
          requestImageType request = headerImageType header ->
          requestFileVersion request <> headerFileVersion header ->
          st' = reply (otaNextImageResponse
                         (mkOtaNextImageResponse 0 (headerManufacturerCode header)
                            (headerImageType header) (headerFileVersion header)
                            (headerImageSize header))))
  end.
Proof.
  intros Hf request st' reply.
  unfold st', clusterCommandReceived, otaUpgradeCommand. rewrite Hf.
  change (negb true) with false. cbv iota.
  change (CLUSTER_OTA_UPGRADE =? CLUSTER_GROUPS) with false.
  change (CLUSTER_OTA_UPGRADE =? CLUSTER_OTA_UPGRADE) with true.
  change (1 =? 1) with true. cbv iota.
  rewrite !otaHeader_bytes. fold request.
  destruct (file (m_otaUpgradeFile st)) as [content|]; [|reflexivity].
  cbv zeta. change (negb true) with false. rewrite orb_false_l.
  split.
  - intros [H | [H | H]].
    + apply Z.eqb_neq in H. rewrite H. reflexivity.
    + apply Z.eqb_neq in H. rewrite H, orb_true_r. reflexivity.
    + apply Z.eqb_eq in H. rewrite H.
      destruct (_ || _)%bool; reflexivity.
  - intros H1 H2 H3.
    apply Z.eqb_eq in H1, H2. apply Z.eqb_neq in H3.
    rewrite H1, H2, H3. reflexivity.
Qed.

End ImageRequest.

Section ImageRequestScenario.
Import Scenario.

(** C7, as stated: no image file is configured, so the specification promises a
    NO_IMAGE_AVAILABLE answer; the device's interview is not finished, and
    the request is dropped without any answer. *)
Lemma ImageRequest_before_interview_is_dropped :
  ZigBee.file (ZigBee.m_otaUpgradeFile Scenario.joined) = None
  /\ ZigBee.m_requests
       (ZigBee.clusterCommandReceived 0%nat 1 CLUSTER_OTA_UPGRADE 0x7E 0x01
          Scenario.imageRequest Scenario.joined) = []
  /\ ZigBee.effects
       (ZigBee.clusterCommandReceived 0%nat 1 CLUSTER_OTA_UPGRADE 0x7E 0x01
          Scenario.imageRequest Scenario.joined) = [].
Proof. repeat split. Qed.

(** The witness of [ImageRequest_reply]: the identified device asks for the
    image of [firmware] and is offered version 0x00010002, 1024 bytes. *)
Lemma ImageRequest_reply_witness :
  ZigBee.m_requests
    (ZigBee.clusterCommandReceived 0%nat 1 CLUSTER_OTA_UPGRADE 0x7E 0x01
       Scenario.imageRequest Scenario.known)
  = [(0, ZigBee.mkRequest
           (ZigBee.DataRequest 0%nat 1 CLUSTER_OTA_UPGRADE
              ([x19; x7e; x02; x00] ++ bytes_le16 0x115F ++ bytes_le16 0x0001
               ++ bytes_le32 0x00010002 ++ bytes_le32 1024) "")
           ZigBee.Data ZigBee.Pending)].
Proof.
  pose proof (ImageRequest_reply Scenario.known 0%nat 1 0x7E Scenario.imageRequest
                eq_refl) as H.
  cbv zeta in H.
  change (ZigBee.file (ZigBee.m_otaUpgradeFile Scenario.known))
    with (Some Scenario.firmware) in H.
  cbv iota beta in H. destruct H as [_ H].
  rewrite H; [reflexivity | reflexivity | reflexivity | vm_compute; discriminate].
Defined.

End ImageRequestScenario.

(** ** The Time cluster responder *)

Section TimeCluster.
Import Device.
Import ZigBee.
Context {P : Type} {pc : PropertyClass P} {ps : Parsers P}.
Context {zcl : ZclNames} {env : Environment P}.

(** The labels of the [switch] of [globalCommandReceived] differ. *)
Lemma global_commands_differ :
  CMD_READ_ATTRIBUTES <> CMD_CONFIGURE_REPORTING_RESPONSE
  /\ CMD_READ_ATTRIBUTES <> CMD_DEFAULT_RESPONSE
  /\ CMD_READ_ATTRIBUTES_RESPONSE <> CMD_DEFAULT_RESPONSE
  /\ CMD_REPORT_ATTRIBUTES <> CMD_CONFIGURE_REPORTING_RESPONSE
  /\ CMD_REPORT_ATTRIBUTES <> CMD_DEFAULT_RESPONSE
  /\ CMD_REPORT_ATTRIBUTES <> CMD_READ_ATTRIBUTES.
Proof.
  pose proof global_commands_distinct as H.
  repeat match goal with
         | H : NoDup (_ :: _) |- _ => inversion H; clear H; subst
         end.
  simpl in *. repeat split; intros E; rewrite E in *; tauto.
Qed.







End TimeCluster.

Section TimeClusterScenario.
Import Scenario.



End TimeClusterScenario.

(** ** The scheduler tick *)

Section Tick.
Import Scenario.

(** C2 fails on the removal pass of [handleRequests]: erasing an entry
    moves the iterator to the next one, and the loop's own step then passes
    over it, so the entry after an erased one stays whatever its status.
    Two requests were sent and reported done, a third was enqueued: both
    are Finished when the removal pass starts, and the tick erases the
    first and leaves the second in the table. *)
Theorem finished_request_survives_tick :
  (forall (A : Type) (erased : A -> bool) (x y : A) (l : list A),
     erased x = true ->
     ZigBee.eraseLoop erased (x :: y :: l) = y :: ZigBee.eraseLoop erased l)
  /\ map (fun kr => (fst kr, ZigBee.status (snd kr)))
         (ZigBee.m_requests Scenario.thirdEnqueued)
     = [(0, ZigBee.Finished); (1, ZigBee.Finished); (2, ZigBee.Pending)]
  /\ map (fun kr => (fst kr, ZigBee.status (snd kr)))
         (ZigBee.m_requests (ZigBee.sendRequests 256 0 Scenario.thirdEnqueued))
     = [(0, ZigBee.Finished); (1, ZigBee.Finished); (2, ZigBee.Sent)]
  /\ map (fun kr => (fst kr, ZigBee.status (snd kr)))
         (ZigBee.m_requests (ZigBee.handleRequests Scenario.thirdEnqueued))
     = [(1, ZigBee.Finished); (2, ZigBee.Sent)].
Proof.
  split; [|split; [|split]].
  - intros A erased x y l H. simpl. now rewrite H.
  - vm_compute. reflexivity.
  - vm_compute. reflexivity.
  - vm_compute. reflexivity.
Qed.

End Tick.

(** ** The Default Response *)

Section DefaultResponse.
Import Device.
Import ZigBee.
Context {P : Type} {pc : PropertyClass P} {ps : Parsers P}.
Context {zcl : ZclNames} {env : Environment P}.

Lemma defaultResponse_bytes (transactionId commandId : Z) :
  defaultResponse transactionId commandId
  = [x18; byte_of_Z transactionId; byte_of_Z CMD_DEFAULT_RESPONSE;
     byte_of_Z commandId; x00].
Proof. reflexivity. Qed.

(** The other effects. *)
Definition other (e : Effect) : Prop := ~ isDefaultResponse e.

Lemma other_data (i : Z) (h : Device) (endpointId cluster : Z) (data : QByteArray)
    (name : string) (s : RequestStatus) :
  (forall transactionId commandId, data <> defaultResponse transactionId commandId) ->
  other (Insert i (mkRequest (DataRequest h endpointId cluster data name) Data s)).
Proof.
  intros H (i' & h' & e' & c' & t & c & n & s' & E).
  injection E as -> -> -> -> Hd -> ->. exact (H _ _ Hd).
Qed.

Lemma other_first_byte (b : byte) (rest : QByteArray) (i : Z) (h : Device)
    (endpointId cluster : Z) (name : string) (s : RequestStatus) :
  b <> x18 ->
  other (Insert i (mkRequest (DataRequest h endpointId cluster (b :: rest) name) Data s)).
Proof.
  intros Hb. apply other_data. intros t c E.
  rewrite defaultResponse_bytes in E. injection E as E _. contradiction.
Qed.

Lemma other_not_insert (e : Effect) :
  (forall i r, e <> Insert i r) -> other e.
Proof.
  intros H (i' & h' & e' & c' & t & c & n & s' & E). exact (H _ _ E).
Qed.

Lemma other_not_data (i : Z) (r : RequestObject) :
  (forall h e c d n, request r <> DataRequest h e c d n) -> other (Insert i r).
Proof.
  intros H (i' & h' & e' & c' & t & c & n & s' & E).
  injection E as -> ->. exact (H _ _ _ _ _ eq_refl).
Qed.

Lemma adds_refl (st : State P) : adds other st st.
Proof. exists []. split; [now rewrite app_nil_r | constructor]. Qed.

Lemma adds_trans (a b c : State P) : adds other a b -> adds other b c -> adds other a c.
Proof.
  intros (d1 & E1 & F1) (d2 & E2 & F2). exists (d1 ++ d2). split.
  - now rewrite E2, E1, app_assoc.
  - apply Forall_app. now split.
Qed.

Lemma adds_same (st st' : State P) : effects st' = effects st -> adds other st st'.
Proof. intros H. exists []. split; [now rewrite app_nil_r | constructor]. Qed.

Lemma adds_emit (e : Effect) (st : State P) : other e -> adds other st (emit e st).
Proof. intros H. exists [e]. split; [reflexivity | now constructor]. Qed.

Lemma adds_modifyDevice (h : Device) (f : DeviceObject P -> DeviceObject P)
    (st : State P) :
  adds other st (modifyDevice h f st).
Proof. apply adds_same. reflexivity. Qed.

Lemma adds_enqueue (r : RequestObject) (st : State P) :
  other (Insert (m_requestId st) r) -> adds other st (enqueue r st).
Proof. intros H. exists [Insert (m_requestId st) r]. split; [reflexivity | now constructor]. Qed.

Lemma adds_interviewDevice (h : Device) (st : State P) :
  adds other st (interviewDevice h st).
Proof.
  unfold interviewDevice. destruct (Device.interviewFinished (device st h)).
  - apply adds_refl.
  - eapply adds_trans; [|apply adds_modifyDevice].
    apply adds_enqueue, other_not_data. intros ? ? ? ? ? H; discriminate H.
Qed.

Lemma adds_configureReporting (h : Device) (e : Z) (r : ReportingObject) (st : State P) :
  adds other st (configureReporting h e r st).
Proof.
  unfold configureReporting.
  eapply adds_trans; [|apply adds_enqueue, other_first_byte; discriminate].
  apply adds_enqueue, other_not_data. intros ? ? ? ? ? H; discriminate H.
Qed.

Lemma adds_configureReportings (h : Device) (e : Z) (rs : list ReportingObject)
    (st : State P) :
  adds other st (fold_left (fun st r => configureReporting h e r st) rs st).
Proof.
  revert st. induction rs as [|r rs IH]; intros st; simpl; [apply adds_refl|].
  eapply adds_trans; [apply adds_configureReporting | apply IH].
Qed.

Lemma adds_interviewFinished (h : Device) (st : State P) :
  adds other st (ZigBee.interviewFinished h st).
Proof.
  unfold ZigBee.interviewFinished.
  set (st1 := modifyDevice h setupDevice st).
  generalize (endpoints (device st1 h)). intros eps.
  assert (H : forall s, adds other s
            (fold_left
               (fun st (ke : Z * EndpointObject P) =>
                  fold_left (fun st r => configureReporting h (id (snd ke)) r st)
                            (reportings (snd ke)) st) eps s)).
  { induction eps as [|ke eps IH]; intros s; simpl; [apply adds_refl|].
    eapply adds_trans; [apply adds_configureReportings | apply IH]. }
  eapply adds_trans; [|apply adds_emit, other_not_insert; intros; discriminate].
  eapply adds_trans; [|apply adds_modifyDevice].
  eapply adds_trans; [|apply adds_modifyDevice].
  eapply adds_trans; [|apply adds_emit, other_not_insert; intros; discriminate].
  eapply adds_trans; [apply adds_modifyDevice | apply H].
Qed.

Lemma adds_parseAttribute (h : Device) (endpointId cluster attributeId dataType : Z)
    (data : QByteArray) (st : State P) :
  adds other st (parseAttribute h endpointId cluster attributeId dataType data st).
Proof.
  unfold parseAttribute.
  destruct (cluster =? CLUSTER_BASIC).
  { assert (Hb : match parseBasic h attributeId dataType data st with
                 | Return st' | Continue st' => adds other st st'
                 end).
    { unfold parseBasic.
      repeat match goal with
             | |- context [if ?c then _ else _] => destruct c
             end;
        repeat first [ apply adds_refl | apply adds_modifyDevice
                     | eapply adds_trans; [|apply adds_interviewFinished]
                     | eapply adds_trans; [|apply adds_modifyDevice] ]. }
    destruct (parseBasic h attributeId dataType data st) as [st' | st']; [exact Hb|].
    eapply adds_trans; [exact Hb|].
    unfold namesReceived.
    destruct (_ && _ && _ && _)%bool; [|apply adds_refl].
    eapply adds_trans; [|apply adds_interviewDevice].
    repeat match goal with
           | |- context [if ?c then _ else _] => destruct c
           end;
      repeat first [ apply adds_refl | apply adds_modifyDevice
                   | eapply adds_trans; [|apply adds_modifyDevice] ]. }
  repeat match goal with
         | |- context [if ?c then _ else _] => destruct c
         end;
    repeat first [ apply adds_refl | apply adds_modifyDevice
                 | eapply adds_trans; [|apply adds_interviewDevice] ].
Qed.

Lemma adds_clusterCommandReceived (h : Device)
    (endpointId cluster transactionId commandId : Z) (payload : QByteArray)
    (st : State P) :
  adds other st
    (clusterCommandReceived h endpointId cluster transactionId commandId payload st).
Proof.
  unfold clusterCommandReceived, otaUpgradeCommand.
  repeat match goal with
         | |- context [if ?c then _ else _] => destruct c
         end;
    first [ apply adds_refl
          | apply adds_modifyDevice
          | apply adds_enqueue, other_first_byte; discriminate
          | apply adds_same; reflexivity
          | eapply adds_trans;
            [apply (adds_same st (setOtaUpgradeFile "" st)); reflexivity
            |apply adds_enqueue, other_first_byte; discriminate] ].
Qed.

Lemma readAttributes_prefix (fuel : nat) (cluster : Z) (payload : QByteArray) :
  forall (i : Z) (request out : QByteArray),
    readAttributes fuel cluster payload i request = Some out ->
    exists suffix, out = request ++ suffix.
Proof.
  induction fuel as [|fuel IH]; intros i request out; simpl.
  - destruct (i <? qlen payload); [discriminate|].
    intros [= <-]. exists []. now rewrite app_nil_r.
  - destruct (i <? qlen payload).
    + intros H. apply IH in H as [suffix ->].
      eexists. rewrite <- !app_assoc. reflexivity.
    + intros [= <-]. exists []. now rewrite app_nil_r.
Qed.

Lemma global_commands_range :
  0 <= CMD_READ_ATTRIBUTES_RESPONSE < 256 /\ 0 <= CMD_DEFAULT_RESPONSE < 256.
Proof.
  pose proof global_commands_quint8 as H.
  repeat match goal with
         | H : Forall _ (_ :: _) |- _ => inversion H; clear H; subst
         end.
  split; assumption.
Qed.

(** The loop over the records ends, and adds no Default Response. *)
Lemma reportAttributes_total (h : Device) (endpointId cluster commandId : Z) :
  forall (fuel : nat) (payload : QByteArray) (st : State P),
    (List.length payload <= fuel)%nat ->
    exists st',
      reportAttributes fuel h endpointId cluster commandId payload st = Some st'
      /\ adds other st st'.
Proof.
  induction fuel as [|fuel IH]; intros payload st Hl.
  - destruct payload; [|simpl in Hl; lia].
    exists st. split; [reflexivity | apply adds_refl].
  - cbn [reportAttributes].
    destruct (2 <? qlen payload) eqn:E2;
      [|exists st; split; [reflexivity | apply adds_refl]].
    apply Z.ltb_lt in E2. unfold qlen in E2.
    destruct (_ && _)%bool.
    { apply IH. rewrite length_skipn. lia. }
    set (dataType := if commandId =? CMD_READ_ATTRIBUTES_RESPONSE
                     then at_ payload 3 else at_ payload 2).
    set (offset := if commandId =? CMD_READ_ATTRIBUTES_RESPONSE then 4 else 3).
    destruct (zclDataSize_offset dataType payload offset) as [Ho Hs].
    destruct (_ && _ && _)%bool;
      [exists st; split; [reflexivity | apply adds_refl]|].
    set (st1 := parseAttribute h endpointId cluster _ _ _ st).
    destruct (IH (skipn (Z.to_nat (snd (zclDataSize dataType payload offset)
                                   + fst (zclDataSize dataType payload offset)))
                        payload) st1) as (st' & E & A).
    { rewrite length_skipn.
      assert (3 <= offset) by (unfold offset; destruct (commandId =? _); lia).
      lia. }
    exists st'. split; [exact E|].
    eapply adds_trans; [apply adds_parseAttribute | exact A].
Qed.

Lemma adds_globalCommandReceived (h : Device)
    (endpointId cluster transactionId commandId : Z) (payload : QByteArray)
    (st st' : State P) :
  globalCommandReceived h endpointId cluster transactionId commandId payload st = Some st' ->
  adds other st st'.
Proof.
  unfold globalCommandReceived.
  destruct (_ || _)%bool; [intros [= <-]; apply adds_refl|].
  destruct (commandId =? CMD_READ_ATTRIBUTES).
  { destruct (readAttributes _ _ _ _ _) as [request|] eqn:E; [|discriminate].
    intros [= <-]. apply readAttributes_prefix in E as [suffix ->].
    apply adds_enqueue, other_data. intros t c Hd.
    rewrite defaultResponse_bytes in Hd. injection Hd as _ Hd _.
    destruct global_commands_range as [R1 R2].
    apply byte_of_Z_inj in Hd; [|assumption|assumption].
    destruct (@global_commands_differ zcl) as (_ & _ & N & _). contradiction. }
  destruct (_ || _)%bool.
  { intros H.
    destruct (reportAttributes_total h endpointId cluster commandId
                (List.length payload) payload st (Nat.le_refl _)) as (st1 & E & A).
    rewrite E in H. injection H as <-. exact A. }
  destruct (commandId =? CMD_WRITE_ATTRIBUTES_RESPONSE); [|intros [= <-]; apply adds_refl].
  destruct (_ && _)%bool; intros [= <-]; [|apply adds_refl].
  eapply adds_trans; [apply adds_modifyDevice | apply adds_interviewDevice].
Qed.

(** The bits of the frame control, as [messageReveived] tests them. *)
Lemma frameControl_bits (data : QByteArray) :
  (Z.land (at_ data 0) FC_CLUSTER_SPECIFIC =? 0) = negb (Z.testbit (at_ data 0) 0)
  /\ (Z.land (at_ data 0) FC_MANUFACTURER_SPECIFIC =? 0) = negb (Z.testbit (at_ data 0) 2)
  /\ (Z.land (at_ data 0) FC_DISABLE_DEFAULT_RESPONSE =? 0)
     = negb (Z.testbit (at_ data 0) 4).
Proof.
  unfold at_. destruct (nth 0 data x00); repeat split.
Qed.


(** What [messageReveived] does between the dispatch and the Default
    Response: the link quality, and the signal of the endpoint's update. *)
Lemma signalled (h : Device) (endpointId linkQuality : Z) (st : State P) :
  let st2 := modifyDevice h (setLinkQuality linkQuality) st in
  let e := endpoint (device st2 h) endpointId in
  let st1 :=
    if updated e then emit (endpointUpdated h (id e)) (emit storeProperties st2) else st2 in
  endpoint (device st1 h) endpointId = e
  /\ exists delta,
       effects st1 = effects st ++ delta
       /\ Forall other delta
       /\ (updated e = true -> In (endpointUpdated h (id e)) delta).
Proof.
  intros st2 e st1. unfold st1. destruct (updated e) eqn:E.
  - split; [reflexivity|].
    exists [storeProperties; endpointUpdated h (id e)]. split; [|split].
    + simpl. now rewrite <- app_assoc.
    + repeat constructor; apply other_not_insert; intros i r H; discriminate H.
    + intros _. right. now left.
  - split; [reflexivity|].
    exists []. split; [|split].
    + now rewrite app_nil_r.
    + constructor.
    + discriminate.
Qed.

(** C8, amended: for a frame from a device of the catalogue that is not
    removed, [messageReveived] enqueues a Default Response (status 0x00,
    the frame's transaction id and command echoed) exactly when the frame is
    cluster-specific or a REPORT_ATTRIBUTES and the peer left
    DISABLE_DEFAULT_RESPONSE clear.  The response is enqueued last, as a
    pending data request under the request id that the dispatch leaves, on
    the state [st1] that the dispatch [sh] and the signals leave: every
    property update of the frame is in [st1], and [endpointUpdated] is among
    the effects before it when the endpoint is marked updated.  No other
    effect of the frame is a Default Response.  A frame from a network
    address that no device of the catalogue has, or from a removed device,
    leaves the state as it was. *)
Theorem default_response_after_dispatch (st : State P)
    (networkAddress endpointId cluster linkQuality : Z) (data : QByteArray) :
  let frameControl := at_ data 0 in
  let manufacturerSpecific := Z.testbit frameControl 2 in
  let transactionId := if manufacturerSpecific then at_ data 3 else at_ data 1 in
  let commandId := if manufacturerSpecific then at_ data 4 else at_ data 2 in
  let payload := if manufacturerSpecific then mid data 5 else mid data 3 in
  let wanted :=
    (Z.testbit frameControl 0 = true \/ commandId = CMD_REPORT_ATTRIBUTES)
    /\ Z.testbit frameControl 4 = false in
  (forall h : Device,
     byNetwork networkAddress st = Some h ->
     removed (device st h) = false ->
     let st0 := modifyDevice h (modifyEndpoint endpointId (fun e => e)) st in
     let dispatched :=
       if Z.testbit frameControl 0
       then Some (clusterCommandReceived h endpointId cluster transactionId commandId
                    payload st0)
       else globalCommandReceived h endpointId cluster transactionId commandId
              payload st0 in
     (wanted ->
      exists (sh st1 : State P) (before : list Effect),
        let response :=
          mkRequest
            (DataRequest h (id (endpoint (device st1 h) endpointId)) cluster
               [x18; byte_of_Z transactionId; byte_of_Z CMD_DEFAULT_RESPONSE;
                byte_of_Z commandId; x00] "")
            Data Pending in
        let st' :=
          enqueueDataRequest h (id (endpoint (device st1 h) endpointId)) cluster
            [x18; byte_of_Z transactionId; byte_of_Z CMD_DEFAULT_RESPONSE;
             byte_of_Z commandId; x00] "" st1 in
        dispatched = Some sh
        /\ store st1 = store (modifyDevice h (setLinkQuality linkQuality) sh)
        /\ m_requests st1 = m_requests sh
        /\ m_requestId st1 = m_requestId sh
        /\ messageReveived networkAddress endpointId cluster linkQuality data st = Some st'
        /\ effects st1 = effects st ++ before
        /\ effects st' = effects st ++ before ++ [Insert (m_requestId sh) response]
        /\ qmap_find Z.compare (m_requestId sh) (m_requests st') = Some response
        /\ (forall k, k <> m_requestId sh ->
              qmap_find Z.compare k (m_requests st') = qmap_find Z.compare k (m_requests sh))
        /\ store st' = store st1
        /\ Forall (fun e => ~ isDefaultResponse e) before
        /\ (updated (endpoint (device st1 h) endpointId) = true ->
            In (endpointUpdated h (id (endpoint (device st1 h) endpointId))) before))
     /\ (~ wanted ->
         forall st' : State P,
           messageReveived networkAddress endpointId cluster linkQuality data st = Some st' ->
           exists added : list Effect,
             effects st' = effects st ++ added
             /\ Forall (fun e => ~ isDefaultResponse e) added))
  /\ (byNetwork networkAddress st = None ->
      messageReveived networkAddress endpointId cluster linkQuality data st = Some st)
  /\ (forall h : Device,
        byNetwork networkAddress st = Some h ->
        removed (device st h) = true ->
        messageReveived networkAddress endpointId cluster linkQuality data st = Some st).
Proof.
  intros frameControl manufacturerSpecific transactionId commandId payload wanted.
  split; [|split];
    [|intros Hn; unfold messageReveived; rewrite Hn; reflexivity
     |intros h Hn Hr; unfold messageReveived; rewrite Hn, Hr; reflexivity].
  intros h Hn Hr st0 dispatched.
  destruct (frameControl_bits data) as (B0 & B2 & B4).
  fold frameControl in B0, B2, B4.
  unfold messageReveived. rewrite Hn, Hr. fold frameControl.
  rewrite B0, B2, B4, !negb_involutive.
  fold manufacturerSpecific. fold transactionId. fold commandId. fold payload.
  fold st0. fold dispatched.
  assert (A0 : adds other st st0) by apply adds_modifyDevice.
  assert (Ah : forall sh, dispatched = Some sh -> adds other st sh).
  { intros sh H. unfold dispatched in H. apply adds_trans with st0; [exact A0|].
    destruct (Z.testbit frameControl 0).
    - injection H as <-. apply adds_clusterCommandReceived.
    - eapply adds_globalCommandReceived. exact H. }
  assert (Tail : forall sh, dispatched = Some sh ->
            let st2 := modifyDevice h (setLinkQuality linkQuality) sh in
            let e := endpoint (device st2 h) endpointId in
            let st1 :=
              if updated e
              then emit (endpointUpdated h (id e)) (emit storeProperties st2) else st2 in
            endpoint (device st1 h) endpointId = e
            /\ store st1 = store st2
            /\ m_requests st1 = m_requests sh
            /\ m_requestId st1 = m_requestId sh
            /\ exists delta,
                 effects st1 = effects st ++ delta
                 /\ Forall other delta
                 /\ (updated e = true -> In (endpointUpdated h (id e)) delta)).
  { intros sh H st2 e st1.
    destruct (signalled h endpointId linkQuality sh) as (He & d & Ed & Fd & Id).
    destruct (Ah sh H) as (d0 & E0 & F0).
    split; [exact He|].
    split; [unfold st1; destruct (updated e); reflexivity|].
    split; [unfold st1; destruct (updated e); reflexivity|].
    split; [unfold st1; destruct (updated e); reflexivity|].
    exists (d0 ++ d). split; [|split].
    - fold st2 e st1 in Ed. rewrite Ed, E0. now rewrite app_assoc.
    - apply Forall_app. now split.
    - intros Hu. apply in_or_app. right. exact (Id Hu). }
  split.
  - intros [Hw Hd].
    assert (Hh : exists sh, dispatched = Some sh).
    { unfold dispatched.
      destruct (Z.testbit frameControl 0) eqn:E0; [eexists; reflexivity|].
      destruct Hw as [Hw | Hw]; [discriminate Hw|].
      unfold globalCommandReceived. rewrite Hw.
      destruct (@global_commands_differ zcl) as (_ & _ & _ & N1 & N2 & N3).
      apply Z.eqb_neq in N1, N2, N3. rewrite N1, N2, N3, Z.eqb_refl, orb_true_r.
      cbn [orb].
      destruct (reportAttributes_total h endpointId cluster CMD_REPORT_ATTRIBUTES
                  (List.length payload) payload st0 (Nat.le_refl _)) as (sh & E & _).
      exists sh. exact E. }
    destruct Hh as [sh Hh]. rewrite Hh.
    destruct (Tail sh Hh) as (He & Hs & Hq & Hi & d & Ed & Fd & Id).
    assert (Hc : ((Z.testbit frameControl 0 || (commandId =? CMD_REPORT_ATTRIBUTES))
                  && negb (Z.testbit frameControl 4))%bool = true).
    { rewrite Hd. destruct Hw as [-> | ->]; [reflexivity|].
      now rewrite Z.eqb_refl, orb_true_r. }
    rewrite Hc.
    set (st2 := modifyDevice h (setLinkQuality linkQuality) sh) in *.
    set (e := endpoint (device st2 h) endpointId) in *.
    set (st1 := if updated e
                then emit (endpointUpdated h (id e)) (emit storeProperties st2)
                else st2) in *.
    exists sh, st1, d. cbv zeta. rewrite He.
    split; [reflexivity|]. split; [exact Hs|]. split; [exact Hq|]. split; [exact Hi|].
    split; [reflexivity|]. split; [exact Ed|].
    split.
    { unfold enqueueDataRequest, enqueue.
      cbn [effects emit setRequests setRequestId setRequestTimer m_requestId].
      rewrite Ed, Hi, <- app_assoc. reflexivity. }
    split.
    { unfold enqueueDataRequest, enqueue.
      cbn [m_requests emit setRequests setRequestId setRequestTimer m_requestId].
      rewrite Hi. apply qmap_find_insert. exact Z.compare_refl. }
    split.
    { intros k Hk. unfold enqueueDataRequest, enqueue.
      cbn [m_requests emit setRequests setRequestId setRequestTimer m_requestId].
      rewrite Hi, Hq. apply qmap_find_insert_other. exact Hk. }
    split; [reflexivity|]. split; [exact Fd | exact Id].
  - intros Hw st' H.
    destruct dispatched as [sh|] eqn:Hh; [|discriminate H].
    destruct (Tail sh eq_refl) as (He & _ & _ & _ & d & Ed & Fd & Id).
    assert (Hc : ((Z.testbit frameControl 0 || (commandId =? CMD_REPORT_ATTRIBUTES))
                  && negb (Z.testbit frameControl 4))%bool = false).
    { destruct (_ && _)%bool eqn:E; [|reflexivity].
      exfalso. apply Hw. apply andb_prop in E as [E1 E2].
      apply negb_true_iff in E2. split; [|exact E2].
      apply orb_prop in E1 as [E1 | E1]; [now left | right; now apply Z.eqb_eq]. }
    rewrite Hc in H. injection H as <-.
    exists d. split; [exact Ed | exact Fd].
Qed.

End DefaultResponse.

Section DefaultResponseScenario.
Import Scenario.

(** C8, as stated: a cluster-specific frame that leaves
    DISABLE_DEFAULT_RESPONSE clear, from a network address that no device of
    the catalogue has, and the same frame from the device of the catalogue
    once it is removed: [messageReveived] returns at once, and enqueues
    nothing. *)
Lemma frame_of_unknown_device_is_not_answered :
  Z.testbit (at_ [x01; x09; x02] 0) 0 = true
  /\ Z.testbit (at_ [x01; x09; x02] 0) 4 = false
  /\ ZigBee.messageReveived 0x4321 1 0x0006 200 [x01; x09; x02] Scenario.known
     = Some Scenario.known
  /\ ZigBee.m_requests Scenario.known = []
  /\ ZigBee.effects Scenario.known = []
  /\ ZigBee.messageReveived 0x1234 1 0x0006 200 [x01; x09; x02]
       (ZigBee.modifyDevice 0%nat (Device.setRemoved true) Scenario.known)
     = Some (ZigBee.modifyDevice 0%nat (Device.setRemoved true) Scenario.known)
  /\ ZigBee.m_requests (ZigBee.modifyDevice 0%nat (Device.setRemoved true) Scenario.known)
     = [].
Proof. repeat split. Qed.

(** The witness of [default_response_after_dispatch]: the identified device
    sends the on/off cluster's toggle with transaction id 9; the switch
    property changes, the endpoint's update is signalled, and the Default
    Response is the last effect and the one entry of the request table. *)
Lemma default_response_after_dispatch_witness :
  exists st' : ZigBee.State Scenario.Property,
    ZigBee.messageReveived 0x1234 1 0x0006 200 [x01; x09; x02] Scenario.known = Some st'
    /\ ZigBee.m_requests st'
       = [(0, ZigBee.mkRequest
                (ZigBee.DataRequest 0%nat 1 0x0006 [x18; x09; x0b; x02; x00] "")
                ZigBee.Data ZigBee.Pending)]
    /\ ZigBee.effects st'
       = [ZigBee.storeProperties; ZigBee.endpointUpdated 0%nat 1;
          ZigBee.Insert 0
            (ZigBee.mkRequest
               (ZigBee.DataRequest 0%nat 1 0x0006 [x18; x09; x0b; x02; x00] "")
               ZigBee.Data ZigBee.Pending)]
    /\ map (fun p => m_value (Scenario.object p))
           (Device.properties (Device.endpoint (ZigBee.device st' 0%nat) 1))
       = [Invalid; VString "toggle"].
Proof.
  destruct (proj1 (proj1 (default_response_after_dispatch Scenario.known 0x1234 1 0x0006
                            200 [x01; x09; x02])
                     0%nat eq_refl eq_refl)
                  (conj (or_introl eq_refl) eq_refl))
    as (sh & st1 & before & _ & _ & _ & _ & E & _).
  cbv zeta in E.
  match type of E with _ = Some ?x => remember x as st' eqn:D end.
  clear D. exists st'. split; [exact E|].
  vm_compute in E. injection E as <-.
  repeat split.
Defined.

End DefaultResponseScenario.
